(** * LocalConnect: availability and booking engine

    A shallow embedding of the availability logic of
    [src/lib/availability.js], the Firestore helpers of
    [src/lib/firestore.js] and the booking submission of
    [src/app/providers/[id]/page.js], together with the properties the
    specification states about them.

    Layout: the JavaScript runtime pieces the code relies on ([Js]), the
    three source files ([Availability], [Firestore], [ProviderPage]), the
    specification-side definitions ([Spec]), and then the theorems. *)

From Stdlib Require Import ZArith QArith Lia Sorted.
From Stdlib Require Floats.
From Stdlib Require Import Ascii String DecimalString.
From stdpp Require Import gmap strings list fin_maps.

Local Open Scope string_scope.
Local Open Scope Z_scope.

(* ===================================================================== *)
(** * The JavaScript runtime, as far as the code uses it                  *)
(* ===================================================================== *)

Module Js.

(** ** Outcomes of a call

    A call returns a value, throws, or is still running when the fuel
    given to its loops is used up. *)

Inductive Error :=
| TypeError (msg : string)
| RangeError (msg : string)
| FirebaseError (msg : string).

(** [error.message] *)
Definition error_message (e : Error) : string :=
  match e with
  | TypeError msg | RangeError msg | FirebaseError msg => msg
  end.

Inductive Outcome (A : Type) :=
| Ret (a : A)
| Throw (e : Error)
| OutOfFuel.

Arguments Ret {A} a.
Arguments Throw {A} e.
Arguments OutOfFuel {A}.

#[global] Instance Outcome_ret : MRet Outcome := fun _ a => Ret a.

#[global] Instance Outcome_bind : MBind Outcome := fun _ _ f m =>
  match m with
  | Ret a => f a
  | Throw e => Throw e
  | OutOfFuel => OutOfFuel
  end.

(** [returns f a]: with enough fuel the call [f] returns [a]. *)
Definition returns {A} (f : nat -> Outcome A) (a : A) : Prop :=
  exists n, forall fuel, (n <= fuel)%nat -> f fuel = Ret a.

(** [diverges f]: no amount of fuel lets the call [f] finish. *)
Definition diverges {A} (f : nat -> Outcome A) : Prop :=
  forall fuel, f fuel = OutOfFuel.

(** ** Numbers

    The code computes with integers (minutes, milliseconds, counts); the
    two other values a JavaScript number can take here are [NaN] (a failed
    [parseInt], an invalid [Date]) and the infinities (a division by
    zero). Integers are exact here at every size, where the code computes
    in binary64: the two agree as long as every value stays below 2^53 in
    size, and can differ above it (there [time + duration] can equal
    [time]). The theorems about the arithmetic of the loops therefore take
    their times from the minutes of a day. *)

Inductive number :=
| NaN
| Inf (negative : bool)
| Num (z : Z).

Definition nneg (a : number) : number :=
  match a with
  | NaN => NaN
  | Inf s => Inf (negb s)
  | Num z => Num (- z)
  end.

Definition nadd (a b : number) : number :=
  match a, b with
  | NaN, _ | _, NaN => NaN
  | Inf s, Inf s' => if Bool.eqb s s' then Inf s else NaN
  | Inf s, Num _ | Num _, Inf s => Inf s
  | Num x, Num y => Num (x + y)
  end.

Definition nsub (a b : number) : number := nadd a (nneg b).

Definition nmul (a b : number) : number :=
  match a, b with
  | NaN, _ | _, NaN => NaN
  | Inf s, Inf s' => Inf (xorb s s')
  | Inf s, Num z | Num z, Inf s =>
      if z =? 0 then NaN else Inf (xorb s (z <? 0))
  | Num x, Num y => Num (x * y)
  end.

(** [a < b]; false as soon as one side is [NaN]. *)
Definition nlt (a b : number) : bool :=
  match a, b with
  | NaN, _ | _, NaN => false
  | Inf s, Inf s' => s && negb s'
  | Inf s, Num _ => s
  | Num _, Inf s => negb s
  | Num x, Num y => x <? y
  end.

(** [a <= b]; false as soon as one side is [NaN]. *)
Definition nle (a b : number) : bool :=
  match a, b with
  | NaN, _ | _, NaN => false
  | Inf s, Inf s' => s || negb s'
  | Inf s, Num _ => s
  | Num _, Inf s => negb s
  | Num x, Num y => x <=? y
  end.

(** [a >= b] is [b <= a], [a > b] is [b < a]. *)
Definition nge (a b : number) : bool := nle b a.
Definition ngt (a b : number) : bool := nlt b a.

(** [Math.floor(a / b)]. *)
Definition floor_div (a b : number) : number :=
  match a, b with
  | NaN, _ | _, NaN => NaN
  | Inf _, Inf _ => NaN
  | Inf s, Num z => Inf (xorb s (z <? 0))
  | Num _, Inf _ => Num 0
  | Num x, Num y =>
      if y =? 0 then (if x =? 0 then NaN else Inf (x <? 0))
      else Num (x / y)
  end.

(** [a % b]: the remainder has the sign of the dividend. *)
Definition nrem (a b : number) : number :=
  match a, b with
  | NaN, _ | _, NaN => NaN
  | Inf _, _ => NaN
  | Num x, Inf _ => Num x
  | Num x, Num y => if y =? 0 then NaN else Num (Z.rem x y)
  end.

(** [n.toString()] *)
Definition toString (a : number) : string :=
  match a with
  | NaN => "NaN"
  | Inf false => "Infinity"
  | Inf true => "-Infinity"
  | Num z => NilZero.string_of_int (Z.to_int z)
  end.

(** ** Strings *)

(** [s.padStart(n, c)] for a one-character pad string. *)
Definition padStart (n : nat) (c : ascii) (s : string) : string :=
  string_of_list_ascii (repeat c (n - String.length s)) +:+ s.

(** [s.split(sep)] for a one-character separator. *)
Fixpoint split (sep : ascii) (s : string) : list string :=
  match s with
  | EmptyString => [EmptyString]
  | String c s' =>
      if Ascii.eqb c sep then EmptyString :: split sep s'
      else match split sep s' with
           | [] => [String c EmptyString]
           | w :: ws => String c w :: ws
           end
  end.

(** [x.split(sep)] where [x] may be [undefined]: reading a property of
    [undefined] throws. *)
Definition split_of (x : option string) (sep : ascii) : Outcome (list string) :=
  match x with
  | None => Throw (TypeError "Cannot read properties of undefined (reading 'split')")
  | Some s => Ret (split sep s)
  end.

(** [s.slice(0, n)] *)
Definition slice0 (n : nat) (s : string) : string := substring 0 n s.

(** [xs.includes(x)] *)
Definition includes (x : string) (xs : list string) : bool :=
  existsb (String.eqb x) xs.

(** ** parseInt *)

Definition is_white_space (c : ascii) : bool :=
  let n := nat_of_ascii c in
  ((n =? 32) || (n =? 9) || (n =? 10) || (n =? 11) || (n =? 12) || (n =? 13))%nat.

Fixpoint trim_start (s : string) : string :=
  match s with
  | String c s' => if is_white_space c then trim_start s' else s
  | EmptyString => EmptyString
  end.

(** Value of a character as a digit in bases up to 36. *)
Definition digit_value (c : ascii) : option Z :=
  let n := Z.of_nat (nat_of_ascii c) in
  if (48 <=? n) && (n <=? 57) then Some (n - 48)
  else if (97 <=? n) && (n <=? 122) then Some (n - 87)
  else if (65 <=? n) && (n <=? 90) then Some (n - 55)
  else None.

(** The longest prefix of digits of the radix, read as a number; [None]
    when there is no digit at all. *)
Fixpoint parse_digits (radix : Z) (s : string) (acc : option Z) : option Z :=
  match s with
  | EmptyString => acc
  | String c s' =>
      match digit_value c with
      | Some v =>
          if v <? radix
          then parse_digits radix s' (Some (default 0 acc * radix + v))
          else acc
      | None => acc
      end
  end.

(** [parseInt(x)] with no radix argument; [undefined] is read as the
    string "undefined". *)
Definition parseInt (x : option string) : number :=
  let s := trim_start (default "undefined" x) in
  let '(sign, s) :=
    match s with
    | String "-" s' => (-1, s')
    | String "+" s' => (1, s')
    | _ => (1, s)
    end in
  let '(radix, s) :=
    match s with
    | String "0" (String "x" s') => (16, s')
    | String "0" (String "X" s') => (16, s')
    | _ => (10, s)
    end in
  match parse_digits radix s None with
  | None => NaN
  | Some v => Num (sign * v)
  end.

(** ** Dates

    A [Date] object holds a time value, the milliseconds since the epoch,
    or is invalid. The whole system lives in one time zone (the
    specification's assumption), so local time is UTC here. *)

Inductive Date :=
| InvalidDate
| TimeValue (t : Z).

Definition msPerSecond : Z := 1000.
Definition msPerMinute : Z := 60000.
Definition msPerHour : Z := 3600000.
Definition msPerDay : Z := 86400000.

(** Day number (days since 1970-01-01) of a civil date of the proleptic
    Gregorian calendar. A day of the month beyond the month's end runs
    into the following month, as [MakeDay] does. *)
Definition days_from_civil (y m d : Z) : Z :=
  let y' := if m <=? 2 then y - 1 else y in
  let era := y' / 400 in
  let yoe := y' - era * 400 in
  let mp := (m + 9) mod 12 in
  let doy := (153 * mp + 2) / 5 + d - 1 in
  let doe := yoe * 365 + yoe / 4 - yoe / 100 + doy in
  era * 146097 + doe - 719468.

(** Civil date (year, month 1..12, day 1..31) of a day number. *)
Definition civil_from_days (z : Z) : Z * Z * Z :=
  let z := z + 719468 in
  let era := z / 146097 in
  let doe := z - era * 146097 in
  let yoe := (doe - doe / 1460 + doe / 36524 - doe / 146096) / 365 in
  let y := yoe + era * 400 in
  let doy := doe - (365 * yoe + yoe / 4 - yoe / 100) in
  let mp := (5 * doy + 2) / 153 in
  let d := doy - (153 * mp + 2) / 5 + 1 in
  let m := if mp <? 10 then mp + 3 else mp - 9 in
  (if m <=? 2 then y + 1 else y, m, d).

(** [d.valueOf()], the number a date is compared as. *)
Definition valueOf (d : Date) : number :=
  match d with
  | InvalidDate => NaN
  | TimeValue t => Num t
  end.

(** Exactly [n] decimal digits at the head of [s]. *)
Fixpoint take_digits (n : nat) (s : string) (acc : Z) : option (Z * string) :=
  match n with
  | O => Some (acc, s)
  | S n' =>
      match s with
      | String c s' =>
          let v := Z.of_nat (nat_of_ascii c) - 48 in
          if (0 <=? v) && (v <=? 9) then take_digits n' s' (acc * 10 + v)
          else None
      | EmptyString => None
      end
  end.

Definition expect (c : ascii) (s : string) : option string :=
  match s with
  | String c' s' => if Ascii.eqb c c' then Some s' else None
  | EmptyString => None
  end.

(** The time of day of a date-time string, [HH:mm] or [HH:mm:ss], in
    milliseconds. *)
Definition parse_time_of_day (s : string) : option Z :=
  '(h, s) ← take_digits 2 s 0;
  s ← expect ":" s;
  '(mi, s) ← take_digits 2 s 0;
  '(sec, s) ← match s with
              | EmptyString => Some (0, EmptyString)
              | _ => s ← expect ":" s; take_digits 2 s 0
              end;
  if String.eqb s "" && (mi <=? 59) && (sec <=? 59)
     && ((h <=? 23) || ((h =? 24) && (mi =? 0) && (sec =? 0)))
  then Some (h * msPerHour + mi * msPerMinute + sec * msPerSecond)
  else None.

(** [new Date(s)] for a string [s] of one of the three shapes the code
    and its date inputs build: the date [YYYY-MM-DD] and the date-times
    [YYYY-MM-DDTHH:mm(:ss)] and [YYYY-MM-DD HH:mm(:ss)], all fields
    zero-padded. A month outside 01..12, a day outside 01..31 or an hour
    beyond 24 gives an invalid date; a day up to 31 that the month does not
    have runs over into the next month. Texts of other shapes ([2024-1-15],
    [Jan 15, 2024]) are left to the engine's own fallback reading, which is
    not modelled: they come out invalid here, and the theorems that depend
    on how a date is read are stated for texts of the date shape. *)
Definition Date_of_string (s : string) : Date :=
  let parsed : option Z :=
    '(y, s) ← take_digits 4 s 0;
    s ← expect "-" s;
    '(m, s) ← take_digits 2 s 0;
    s ← expect "-" s;
    '(d, s) ← take_digits 2 s 0;
    if (1 <=? m) && (m <=? 12) && (1 <=? d) && (d <=? 31) then
      match s with
      | EmptyString => Some (days_from_civil y m d * msPerDay)
      | String sep s' =>
          if Ascii.eqb sep "T" || Ascii.eqb sep " " then
            tod ← parse_time_of_day s';
            Some (days_from_civil y m d * msPerDay + tod)
          else None
      end
    else None in
  match parsed with
  | Some t => TimeValue t
  | None => InvalidDate
  end.

(** [d.getDay()]: 0 is Sunday; the epoch was a Thursday. *)
Definition getDay (d : Date) : number :=
  match d with
  | InvalidDate => NaN
  | TimeValue t => Num ((t / msPerDay + 4) mod 7)
  end.

(** [d.getDate()], the day of the month. *)
Definition getDate (d : Date) : number :=
  match d with
  | InvalidDate => NaN
  | TimeValue t => let '(_, _, dom) := civil_from_days (t / msPerDay) in Num dom
  end.

(** [d.setDate(n)]: same year, month and time of day, day of the month
    [n]. *)
Definition setDate (d : Date) (n : number) : Date :=
  match d, n with
  | TimeValue t, Num n =>
      let '(y, m, _) := civil_from_days (t / msPerDay) in
      TimeValue (days_from_civil y m n * msPerDay + t mod msPerDay)
  | _, _ => InvalidDate
  end.

(** [d.getMinutes()] *)
Definition getMinutes (d : Date) : number :=
  match d with
  | InvalidDate => NaN
  | TimeValue t => Num ((t / msPerMinute) mod 60)
  end.

(** [d.setMinutes(n)]: same day, hour, seconds and milliseconds, minute
    [n] (which may run over into the hours). *)
Definition setMinutes (d : Date) (n : number) : Date :=
  match d, n with
  | TimeValue t, Num n =>
      TimeValue (t - ((t / msPerMinute) mod 60) * msPerMinute + n * msPerMinute)
  | _, _ => InvalidDate
  end.

Definition pad2 (z : Z) : string := padStart 2 "0" (toString (Num z)).

(** [d.toISOString()], [YYYY-MM-DDTHH:mm:ss.sssZ]; throws on an invalid
    date. *)
Definition toISOString (d : Date) : Outcome string :=
  match d with
  | InvalidDate => Throw (RangeError "Invalid time value")
  | TimeValue t =>
      let '(y, m, dom) := civil_from_days (t / msPerDay) in
      let year :=
        if (0 <=? y) && (y <=? 9999) then padStart 4 "0" (toString (Num y))
        else (if y <? 0 then "-" else "+") +:+ padStart 6 "0" (toString (Num (Z.abs y))) in
      Ret (year +:+ "-" +:+ pad2 m +:+ "-" +:+ pad2 dom +:+ "T"
           +:+ pad2 ((t / msPerHour) mod 24) +:+ ":"
           +:+ pad2 ((t / msPerMinute) mod 60) +:+ ":"
           +:+ pad2 ((t / msPerSecond) mod 60) +:+ "."
           +:+ padStart 3 "0" (toString (Num (t mod 1000))) +:+ "Z")
  end.

(** [d.toTimeString()] *)
Definition toTimeString (d : Date) : string :=
  match d with
  | InvalidDate => "Invalid Date"
  | TimeValue t =>
      pad2 ((t / msPerHour) mod 24) +:+ ":"
      +:+ pad2 ((t / msPerMinute) mod 60) +:+ ":"
      +:+ pad2 ((t / msPerSecond) mod 60)
      +:+ " GMT+0000 (Coordinated Universal Time)"
  end.

(** [d.setHours(0, 0, 0, 0)]: the start of the day. *)
Definition setHours0 (d : Date) : Date :=
  match d with
  | InvalidDate => InvalidDate
  | TimeValue t => TimeValue (t - t mod msPerDay)
  end.

(** ** Double precision

    The one quotient the code does not round down at once is the
    percentage [count / total * 100]. It is computed here as the code
    computes it, in binary64, with Rocq's primitive floating-point numbers. *)

(** A number as a binary64 value (an integer beyond 2^53 is rounded to the
    nearest one). *)
Definition to_float (a : number) : PrimFloat.float :=
  match a with
  | NaN => PrimFloat.nan
  | Inf false => PrimFloat.infinity
  | Inf true => PrimFloat.neg_infinity
  | Num z =>
      FloatOps.SF2Prim
        (SpecFloat.binary_normalize FloatOps.prec FloatOps.emax z 0 false)
  end.

(** [Math.round(x)]: the nearest integer, halves upwards. *)
Definition Math_round (x : PrimFloat.float) : number :=
  match FloatOps.Prim2SF x with
  | SpecFloat.S754_zero _ => Num 0
  | SpecFloat.S754_infinity s => Inf s
  | SpecFloat.S754_nan => NaN
  | SpecFloat.S754_finite s m e =>
      let n := if s then Z.neg m else Z.pos m in
      if 0 <=? e then Num (n * 2 ^ e)
      else Num ((2 * n + 2 ^ (- e)) / (2 * 2 ^ (- e)))
  end.

(** ** Arrays of strings *)

Fixpoint sort_insert (x : string) (xs : list string) : list string :=
  match xs with
  | [] => [x]
  | y :: ys => if String.leb x y then x :: xs else y :: sort_insert x ys
  end.

(** [xs.sort()]: ascending in the order of the code units. *)
Definition sort (xs : list string) : list string :=
  foldr sort_insert [] xs.

(** [xs.length] as a number. *)
Definition length_of {A} (xs : list A) : number := Num (Z.of_nat (length xs)).

End Js.

(* ===================================================================== *)
(** * The data the engine reads                                           *)
(* ===================================================================== *)

(** One weekday of a provider's weekly schedule
    ([provider.availability[day]]). A time that was never stored is
    [None] ([undefined]). *)
Record DayAvailability := {
  available : bool;
  startTime : option string;
  endTime : option string
}.

(** A provider document; [availability] maps the weekday (0 is Sunday) to
    its rule and is [None] when the document has no schedule. *)
Record Provider := {
  id : string;
  name : string;
  averagePrice : Z;
  availability : option (gmap nat DayAvailability)
}.

(** A time stamp field as the client writes it: the [serverTimestamp()]
    sentinel or an ISO text of the client's clock. *)
Inductive Timestamp :=
| ServerTimestamp
| ClientTime (iso : string).

(** A booking document of the [bookings] collection. *)
Record Booking := {
  customerId : string;
  customerName : string;
  providerId : string;
  providerName : string;
  serviceType : string;
  scheduledDate : string;
  scheduledTime : string;
  description : string;
  status : string;
  totalPrice : Z;
  createdAt : option Timestamp;
  updatedAt : option Timestamp
}.

(* ===================================================================== *)
(** * src/lib/availability.js                                             *)
(* ===================================================================== *)

Module Availability.
Import Js.

(** [provider.availability[dayOfWeek]]: no entry under a key that is not
    one of the stored weekdays, NaN included. *)
Definition day_entry (a : gmap nat DayAvailability) (dayOfWeek : number)
  : option DayAvailability :=
  match dayOfWeek with
  | Num z => if 0 <=? z then a !! Z.to_nat z else None
  | _ => None
  end.

(** The test of the [find] in [isProviderAvailable]. *)
Definition conflicts (date time : string) (booking : Booking) : bool :=
  String.eqb (scheduledDate booking) date
  && String.eqb (scheduledTime booking) time
  && includes (status booking) ["pending"; "confirmed"].

(** [isProviderAvailable(provider, date, time, existingBookings)] *)
Definition isProviderAvailable (provider : option Provider) (date time : string)
    (existingBookings : list Booking) : Outcome bool :=
  match provider ≫= availability with
  | None => Ret false
  | Some avail =>
      if String.eqb date "" || String.eqb time "" then Ret false else
      let dayOfWeek := getDay (Date_of_string date) in
      match day_entry avail dayOfWeek with
      | None => Ret false
      | Some dayAvailability =>
          if negb (available dayAvailability) then Ret false else
          let timeHour := parseInt (split ":" time !! 0%nat) in
          let timeMinute := parseInt (split ":" time !! 1%nat) in
          let requestedTime := nadd (nmul timeHour (Num 60)) timeMinute in
          s0 ← split_of (startTime dayAvailability) ":";
          let startHour := parseInt (s0 !! 0%nat) in
          s1 ← split_of (startTime dayAvailability) ":";
          let startMinute := parseInt (s1 !! 1%nat) in
          let startTime := nadd (nmul startHour (Num 60)) startMinute in
          e0 ← split_of (endTime dayAvailability) ":";
          let endHour := parseInt (e0 !! 0%nat) in
          e1 ← split_of (endTime dayAvailability) ":";
          let endMinute := parseInt (e1 !! 1%nat) in
          let endTime := nadd (nmul endHour (Num 60)) endMinute in
          if nlt requestedTime startTime || nge requestedTime endTime
          then Ret false
          else
            let conflictingBooking := List.find (conflicts date time) existingBookings in
            Ret (negb (bool_decide (is_Some conflictingBooking)))
      end
  end.

(** The [HH:MM] text the two slot loops build from a minute count. *)
Definition timeString_of (time : number) : string :=
  let hour := floor_div time (Num 60) in
  let minute := nrem time (Num 60) in
  padStart 2 "0" (toString hour) +:+ ":" +:+ padStart 2 "0" (toString minute).

(** The [while] loop of [getAvailableTimeSlots]. *)
Fixpoint getAvailableTimeSlots_while (fuel : nat) (provider : option Provider)
    (date : string) (existingBookings : list Booking) (slotDuration : Z)
    (endTime currentTime : number) (slots : list string) : Outcome (list string) :=
  match fuel with
  | O => OutOfFuel
  | S fuel' =>
      if nle (nadd currentTime (Num slotDuration)) endTime then
        let timeString := timeString_of currentTime in
        ok ← isProviderAvailable provider date timeString existingBookings;
        let slots := if ok : bool then (slots ++ [timeString])%list else slots in
        getAvailableTimeSlots_while fuel' provider date existingBookings slotDuration
          endTime (nadd currentTime (Num slotDuration)) slots
      else Ret slots
  end.

(** [getAvailableTimeSlots(provider, date, existingBookings, slotDuration)] *)
Definition getAvailableTimeSlots (fuel : nat) (provider : option Provider)
    (date : string) (existingBookings : list Booking) (slotDuration : Z)
  : Outcome (list string) :=
  match provider ≫= availability with
  | None => Ret []
  | Some avail =>
      if String.eqb date "" then Ret [] else
      let dayOfWeek := getDay (Date_of_string date) in
      match day_entry avail dayOfWeek with
      | None => Ret []
      | Some dayAvailability =>
          if negb (available dayAvailability) then Ret [] else
          s0 ← split_of (startTime dayAvailability) ":";
          let startHour := parseInt (s0 !! 0%nat) in
          s1 ← split_of (startTime dayAvailability) ":";
          let startMinute := parseInt (s1 !! 1%nat) in
          e0 ← split_of (endTime dayAvailability) ":";
          let endHour := parseInt (e0 !! 0%nat) in
          e1 ← split_of (endTime dayAvailability) ":";
          let endMinute := parseInt (e1 !! 1%nat) in
          let currentTime := nadd (nmul startHour (Num 60)) startMinute in
          let endTime := nadd (nmul endHour (Num 60)) endMinute in
          getAvailableTimeSlots_while fuel provider date existingBookings
            slotDuration endTime currentTime []
      end
  end.

(** The object [getAvailabilityStatus] returns; a field the returned
    object does not carry (or carries as [undefined]) is [None]. *)
Module Status.
Record t := {
  available : bool;
  status : string;
  message : string;
  dayName : option string;
  availableSlots : option number;
  bookedSlots : option number;
  totalSlots : option number;
  availabilityPercentage : option number;
  workingHours : option string
}.
End Status.

(** [getBookedSlotsForDate(date, existingBookings)] *)
Definition getBookedSlotsForDate (date : string) (existingBookings : list Booking)
  : list string :=
  sort
    (map scheduledTime
       (List.filter
          (fun booking =>
             String.eqb (scheduledDate booking) date
             && includes (status booking) ["pending"; "confirmed"])
          existingBookings)).

(** [getTotalPossibleSlots(dayAvailability, slotDuration)] *)
Definition getTotalPossibleSlots (dayAvailability : DayAvailability)
    (slotDuration : Z) : Outcome number :=
  s0 ← split_of (startTime dayAvailability) ":";
  let startHour := parseInt (s0 !! 0%nat) in
  s1 ← split_of (startTime dayAvailability) ":";
  let startMinute := parseInt (s1 !! 1%nat) in
  e0 ← split_of (endTime dayAvailability) ":";
  let endHour := parseInt (e0 !! 0%nat) in
  e1 ← split_of (endTime dayAvailability) ":";
  let endMinute := parseInt (e1 !! 1%nat) in
  let startTime := nadd (nmul startHour (Num 60)) startMinute in
  let endTime := nadd (nmul endHour (Num 60)) endMinute in
  Ret (floor_div (nsub endTime startTime) (Num slotDuration)).

(** [getDayName(date)] *)
Definition getDayName (date : string) : option string :=
  let days := ["Sunday"; "Monday"; "Tuesday"; "Wednesday"; "Thursday";
               "Friday"; "Saturday"] in
  match getDay (Date_of_string date) with
  | Num z => if 0 <=? z then days !! Z.to_nat z else None
  | _ => None
  end.

(** [getAvailabilityStatus(provider, date, existingBookings)] *)
Definition getAvailabilityStatus (fuel : nat) (provider : option Provider)
    (date : string) (existingBookings : list Booking) : Outcome Status.t :=
  match provider ≫= availability with
  | None =>
      Ret {| Status.available := false; Status.status := "unavailable";
             Status.message := "No availability data";
             Status.dayName := None; Status.availableSlots := None;
             Status.bookedSlots := None; Status.totalSlots := None;
             Status.availabilityPercentage := None; Status.workingHours := None |}
  | Some avail =>
      if String.eqb date "" then
        Ret {| Status.available := false; Status.status := "unavailable";
               Status.message := "No availability data";
               Status.dayName := None; Status.availableSlots := None;
               Status.bookedSlots := None; Status.totalSlots := None;
               Status.availabilityPercentage := None; Status.workingHours := None |}
      else
      let dayOfWeek := getDay (Date_of_string date) in
      let closed :=
        {| Status.available := false; Status.status := "closed";
           Status.message := "Provider is closed on this day";
           Status.dayName := getDayName date; Status.availableSlots := None;
           Status.bookedSlots := None; Status.totalSlots := None;
           Status.availabilityPercentage := None; Status.workingHours := None |} in
      match day_entry avail dayOfWeek with
      | None => Ret closed
      | Some dayAvailability =>
          if negb (available dayAvailability) then Ret closed else
          availableSlots ← getAvailableTimeSlots fuel provider date existingBookings 60;
          totalPossibleSlots ← getTotalPossibleSlots dayAvailability 60;
          let bookedSlots := getBookedSlotsForDate date existingBookings in
          if (length availableSlots =? 0)%nat then
            Ret {| Status.available := false; Status.status := "fully-booked";
                   Status.message := "Fully booked for this day";
                   Status.dayName := None; Status.availableSlots := None;
                   Status.bookedSlots := Some (length_of bookedSlots);
                   Status.totalSlots := Some totalPossibleSlots;
                   Status.availabilityPercentage := None;
                   Status.workingHours := None |}
          else
            let availabilityPercentage :=
              PrimFloat.mul
                (PrimFloat.div (to_float (length_of availableSlots))
                   (to_float totalPossibleSlots))
                (to_float (Num 100)) in
            let '(status, message) :=
              if PrimFloat.ltb availabilityPercentage (to_float (Num 25)) then
                ("limited",
                 "Limited availability - only "
                   +:+ toString (length_of availableSlots) +:+ " slots left")
              else if PrimFloat.ltb availabilityPercentage (to_float (Num 50)) then
                ("moderate", toString (length_of availableSlots) +:+ " slots available")
              else
                ("available", toString (length_of availableSlots) +:+ " slots available") in
            Ret {| Status.available := true; Status.status := status;
                   Status.message := message;
                   Status.dayName := None;
                   Status.availableSlots := Some (length_of availableSlots);
                   Status.bookedSlots := Some (length_of bookedSlots);
                   Status.totalSlots := Some totalPossibleSlots;
                   Status.availabilityPercentage := Some (Math_round availabilityPercentage);
                   Status.workingHours :=
                     Some (default "undefined" (startTime dayAvailability) +:+ " - "
                           +:+ default "undefined" (endTime dayAvailability)) |}
      end
  end.

(** The [for] loop of [generateTimeSlots]. *)
Fixpoint generateTimeSlots_for (fuel : nat) (duration : Z) (end_ time : number)
    (slots : list string) : Outcome (list string) :=
  match fuel with
  | O => OutOfFuel
  | S fuel' =>
      if nle (nadd time (Num duration)) end_ then
        generateTimeSlots_for fuel' duration end_ (nadd time (Num duration))
          (slots ++ [timeString_of time])%list
      else Ret slots
  end.

(** [generateTimeSlots(startTime, endTime, duration)] *)
Definition generateTimeSlots (fuel : nat) (startTime endTime : string)
    (duration : Z) : Outcome (list string) :=
  let start :=
    nadd (nmul (parseInt (split ":" startTime !! 0%nat)) (Num 60))
         (parseInt (split ":" startTime !! 1%nat)) in
  let end_ :=
    nadd (nmul (parseInt (split ":" endTime !! 0%nat)) (Num 60))
         (parseInt (split ":" endTime !! 1%nat)) in
  generateTimeSlots_for fuel duration end_ start [].

(** The object [getNextAvailableSlot] returns. *)
Record NextSlot := {
  next_date : string;
  next_time : option string;
  next_dayName : option string
}.

(** The date text [checkDate.toISOString().split('T')[0]] of the day [i]
    days after [today]. *)
Definition dateString_after (today : Date) (i : Z) : Outcome string :=
  let checkDate := today in
  let checkDate := setDate checkDate (nadd (getDate today) (Num i)) in
  iso ← toISOString checkDate;
  Ret (default "" (split "T" iso !! 0%nat)).

(** The [for] loop of [getNextAvailableSlot]: [remaining] rounds are left
    and the next one looks at day [i]. *)
Fixpoint getNextAvailableSlot_for (fuel remaining : nat) (today : Date) (i : Z)
    (provider : option Provider) (existingBookings : list Booking)
  : Outcome (option NextSlot) :=
  match remaining with
  | O => Ret None
  | S remaining' =>
      dateString ← dateString_after today i;
      availableSlots ← getAvailableTimeSlots fuel provider dateString existingBookings 60;
      if (0 <? length availableSlots)%nat then
        Ret (Some {| next_date := dateString;
                     next_time := availableSlots !! 0%nat;
                     next_dayName := getDayName dateString |})
      else
        getNextAvailableSlot_for fuel remaining' today (i + 1) provider existingBookings
  end.

(** [getNextAvailableSlot(provider, existingBookings, daysToCheck)], the
    clock reading [now] in milliseconds. *)
Definition getNextAvailableSlot (fuel : nat) (now : Z) (provider : option Provider)
    (existingBookings : list Booking) (daysToCheck : nat) : Outcome (option NextSlot) :=
  let today := TimeValue now in
  getNextAvailableSlot_for fuel daysToCheck today 0 provider existingBookings.

(** The [for] loop of [getWeeklyAvailability]. *)
Fixpoint getWeeklyAvailability_for (fuel remaining : nat) (startDate : Date) (i : Z)
    (provider : option Provider) (existingBookings : list Booking)
    (weeklyAvailability : gmap string Status.t) : Outcome (gmap string Status.t) :=
  match remaining with
  | O => Ret weeklyAvailability
  | S remaining' =>
      dateString ← dateString_after startDate i;
      let dayName := default "undefined" (getDayName dateString) in
      dayStatus ← getAvailabilityStatus fuel provider dateString existingBookings;
      getWeeklyAvailability_for fuel remaining' startDate (i + 1) provider
        existingBookings (<[dayName := dayStatus]> weeklyAvailability)
  end.

(** [getWeeklyAvailability(provider, weekStartDate, existingBookings)] *)
Definition getWeeklyAvailability (fuel : nat) (provider : option Provider)
    (weekStartDate : string) (existingBookings : list Booking)
  : Outcome (gmap string Status.t) :=
  let startDate := Date_of_string weekStartDate in
  getWeeklyAvailability_for fuel 7 startDate 0 provider existingBookings ∅.

(** [isSlotInPast(date, time)] at the clock reading [now]. *)
Definition isSlotInPast (now : Z) (date time : string) : bool :=
  let slotDateTime := Date_of_string (date +:+ "T" +:+ time +:+ ":00") in
  nlt (valueOf slotDateTime) (valueOf (TimeValue now)).

(** [filterPastSlots(date, timeSlots)] at the clock reading [now]. *)
Definition filterPastSlots (now : Z) (date : string) (timeSlots : list string)
  : Outcome (list string) :=
  iso ← toISOString (TimeValue now);
  let today := default "" (split "T" iso !! 0%nat) in
  if negb (String.eqb date today) then Ret timeSlots
  else Ret (List.filter (fun time => negb (isSlotInPast now date time)) timeSlots).

(** [hasAvailabilityOnDate(provider, date, existingBookings)] *)
Definition hasAvailabilityOnDate (fuel : nat) (now : Z) (provider : option Provider)
    (date : string) (existingBookings : list Booking) : Outcome bool :=
  availableSlots ← getAvailableTimeSlots fuel provider date existingBookings 60;
  filteredSlots ← filterPastSlots now date availableSlots;
  Ret (0 <? length filteredSlots)%nat.

(** The [for] loop of [getNextAvailableDate]. *)
Fixpoint getNextAvailableDate_for (fuel remaining : nat) (now : Z) (today : Date)
    (i : Z) (provider : option Provider) (existingBookings : list Booking)
  : Outcome (option string) :=
  match remaining with
  | O => Ret None
  | S remaining' =>
      dateString ← dateString_after today i;
      has ← hasAvailabilityOnDate fuel now provider dateString existingBookings;
      if has : bool then Ret (Some dateString)
      else getNextAvailableDate_for fuel remaining' now today (i + 1) provider existingBookings
  end.

(** [getNextAvailableDate(provider, existingBookings, daysToCheck)] *)
Definition getNextAvailableDate (fuel : nat) (now : Z) (provider : option Provider)
    (existingBookings : list Booking) (daysToCheck : nat) : Outcome (option string) :=
  let today := setHours0 (TimeValue now) in
  getNextAvailableDate_for fuel daysToCheck now today 0 provider existingBookings.

(** The callback of the [filter] of [filterProvidersByAvailability]. *)
Definition provider_passes (fuel : nat) (now : Z) (date time : string)
    (bookingsMap : gmap string (list Booking)) (provider : Provider) : Outcome bool :=
  let providerBookings := default [] (bookingsMap !! id provider) in
  if negb (String.eqb date "") && negb (String.eqb time "") then
    Availability.isProviderAvailable (Some provider) date time providerBookings
  else if negb (String.eqb date "") then
    Availability.hasAvailabilityOnDate fuel now (Some provider) date providerBookings
  else Ret true.

(** [providers.filter(callback)] for a callback that may throw. *)
Fixpoint filter_providers (keep : Provider -> Outcome bool) (providers : list Provider)
  : Outcome (list Provider) :=
  match providers with
  | [] => Ret []
  | provider :: rest =>
      ok ← keep provider;
      kept ← filter_providers keep rest;
      Ret (if ok : bool then provider :: kept else kept)
  end.

(** [filterProvidersByAvailability(providers, date, time, bookingsMap)] at
    the clock reading [now]; a date or time that is not given is the empty
    text. *)
Definition filterProvidersByAvailability (fuel : nat) (now : Z)
    (providers : list Provider) (date time : string)
    (bookingsMap : gmap string (list Booking)) : Outcome (list Provider) :=
  if String.eqb date "" && String.eqb time "" then Ret providers
  else filter_providers (provider_passes fuel now date time bookingsMap) providers.

End Availability.

(* ===================================================================== *)
(** * src/lib/firestore.js                                                *)
(* ===================================================================== *)

Module Firestore.
Import Js.

(** The document store: the two collections the engine touches.
    Booking documents are kept under the ids the store gave them. *)
Record Db := {
  bookings : gmap nat Booking;
  providers : gmap string Provider
}.

(** What the helpers of this file hand back: [{success: true, ...}] with
    its payload or [{success: false, error}]. *)
Inductive Reply (A : Type) :=
| Success (data : A)
| Failure (error : string).

Arguments Success {A} data.
Arguments Failure {A} error.

(** [addDoc(collection(db, 'bookings'), data)]: the store files the
    document under an id no document has yet and answers with it; when the
    store refuses the write ([fault], with its message) nothing is stored
    and the call throws. *)
Definition addDoc (fault : option string) (db : Db) (data : Booking)
  : Outcome nat * Db :=
  match fault with
  | Some msg => (Throw (FirebaseError msg), db)
  | None =>
      let docId := fresh (dom (bookings db)) in
      (Ret docId,
       {| bookings := <[docId := data]> (bookings db); providers := providers db |})
  end.

(** [createBooking(bookingData)] *)
Definition createBooking (fault : option string) (bookingData : Booking) (db : Db)
  : Reply nat * Db :=
  let data :=
    {| customerId := customerId bookingData;
       customerName := customerName bookingData;
       providerId := providerId bookingData;
       providerName := providerName bookingData;
       serviceType := serviceType bookingData;
       scheduledDate := scheduledDate bookingData;
       scheduledTime := scheduledTime bookingData;
       description := description bookingData;
       status := "pending";
       totalPrice := totalPrice bookingData;
       createdAt := Some ServerTimestamp;
       updatedAt := Some ServerTimestamp |} in
  match addDoc fault db data with
  | (Ret docRef, db') => (Success docRef, db')
  | (Throw error, db') => (Failure (error_message error), db')
  | (OutOfFuel, db') => (Failure "", db') (* not reached: [addDoc] has no loop *)
  end.

(** [getProviderProfile(uid)] *)
Definition getProviderProfile (fault : option string) (db : Db) (uid : string)
  : Reply Provider :=
  match fault with
  | Some msg => Failure msg
  | None =>
      match providers db !! uid with
      | Some providerDoc => Success providerDoc
      | None => Failure "Provider not found"
      end
  end.

(** The [while] loop of the helper [generateTimeSlots]. *)
Fixpoint generateTimeSlots_while (fuel : nat) (intervalMinutes : Z)
    (end_ current : Date) (slots : list string) : Outcome (list string) :=
  match fuel with
  | O => OutOfFuel
  | S fuel' =>
      if nlt (valueOf current) (valueOf end_) then
        let slots := (slots ++ [slice0 5 (toTimeString current)])%list in
        let current := setMinutes current (nadd (getMinutes current) (Num intervalMinutes)) in
        generateTimeSlots_while fuel' intervalMinutes end_ current slots
      else Ret slots
  end.

(** The helper [generateTimeSlots(startTime, endTime, intervalMinutes)] *)
Definition generateTimeSlots (fuel : nat) (startTime endTime : string)
    (intervalMinutes : Z) : Outcome (list string) :=
  let start := Date_of_string ("2000-01-01 " +:+ startTime) in
  let end_ := Date_of_string ("2000-01-01 " +:+ endTime) in
  let current := start in
  generateTimeSlots_while fuel intervalMinutes end_ current [].

(** [x || fallback] for a text that may be missing or empty. *)
Definition or_default (x : option string) (fallback : string) : string :=
  match x with
  | Some s => if String.eqb s "" then fallback else s
  | None => fallback
  end.

(** [getAvailableTimeSlots(providerId, date)] *)
Definition getAvailableTimeSlots (fuel : nat) (fault : option string) (db : Db)
    (providerId' date : string) : Outcome (Reply (list string)) :=
  match getProviderProfile fault db providerId' with
  | Failure error => Ret (Failure error)
  | Success provider =>
      let dayOfWeek := getDay (Date_of_string date) in
      let dayAvailability :=
        availability provider ≫= fun a => Availability.day_entry a dayOfWeek in
      match dayAvailability with
      | None => Ret (Success [])
      | Some dayAvailability =>
          if negb (available dayAvailability) then Ret (Success []) else
          let bookingsSnapshot :=
            List.filter
              (fun doc =>
                 String.eqb (providerId doc) providerId'
                 && String.eqb (scheduledDate doc) date
                 && includes (status doc) ["pending"; "confirmed"])
              (map snd (map_to_list (bookings db))) in
          let bookedTimes := map scheduledTime bookingsSnapshot in
          let startTime := or_default (startTime dayAvailability) "09:00" in
          let endTime := or_default (endTime dayAvailability) "17:00" in
          slots ← generateTimeSlots fuel startTime endTime 60;
          let availableSlots :=
            List.filter (fun slot => negb (includes slot bookedTimes)) slots in
          Ret (Success availableSlots)
      end
  end.

End Firestore.

(* ===================================================================== *)
(** * src/app/providers/[id]/page.js                                      *)
(* ===================================================================== *)

Module ProviderPage.
Import Js.

(** The signed-in user of the auth context. *)
Record User := {
  uid : string;
  displayName : option string;
  email : string
}.

(** The booking form ([bookingData]). *)
Record BookingForm := {
  form_serviceType : string;
  form_scheduledDate : string;
  form_scheduledTime : string;
  form_description : string
}.

(** What the visitor sees after pressing the submit button. *)
Inductive Shown :=
| RedirectToLogin
| AlertOnlyCustomers
| AlertRequestSent
| AlertError.

(** [handleBookingSubmit(e)], the clock reading [now] in milliseconds. *)
Definition handleBookingSubmit (fault : option string) (now : Z)
    (user : option User) (userRole : string) (provider : Provider)
    (bookingData : BookingForm) (db : Firestore.Db) : Shown * Firestore.Db :=
  match user with
  | None => (RedirectToLogin, db)
  | Some user =>
      if negb (String.eqb userRole "customer") then (AlertOnlyCustomers, db) else
      let attempt : Outcome unit * Firestore.Db :=
        match toISOString (TimeValue now) with
        | Ret iso =>
            let booking :=
              {| customerId := uid user;
                 customerName := Firestore.or_default (displayName user) (email user);
                 providerId := id provider;
                 providerName := name provider;
                 serviceType := form_serviceType bookingData;
                 scheduledDate := form_scheduledDate bookingData;
                 scheduledTime := form_scheduledTime bookingData;
                 description := form_description bookingData;
                 status := "pending";
                 totalPrice := averagePrice provider;
                 createdAt := Some (ClientTime iso);
                 updatedAt := None |} in
            match Firestore.addDoc fault db booking with
            | (Ret _, db') => (Ret tt, db')
            | (Throw e, db') => (Throw e, db')
            | (OutOfFuel, db') => (OutOfFuel, db')
            end
        | Throw e => (Throw e, db)
        | OutOfFuel => (OutOfFuel, db)
        end in
      match attempt with
      | (Ret _, db') => (AlertRequestSent, db')
      | (_, db') => (AlertError, db')
      end
  end.

(** The slots of today still ahead, as the availability card of the page
    filters them: [todaySlots.filter(time => new Date(`${today}T${time}:00`)
    > new Date())]. *)
Definition todayAvailableSlots (now : Z) (today : string) (todaySlots : list string)
  : list string :=
  List.filter
    (fun time =>
       let slotDateTime := Date_of_string (today +:+ "T" +:+ time +:+ ":00") in
       ngt (valueOf slotDateTime) (valueOf (TimeValue now)))
    todaySlots.

End ProviderPage.

(* ===================================================================== *)
(** * Specification-side definitions                                      *)
(* ===================================================================== *)

Module Spec.
Import Js.

(** The minute of the day an [HH:MM] text stands for, read the way every
    function of availability.js reads it: hours times 60 plus minutes. *)
Definition minutes_of (hhmm : string) : number :=
  nadd (nmul (parseInt (split ":" hhmm !! 0%nat)) (Num 60))
       (parseInt (split ":" hhmm !! 1%nat)).

(** The [HH:MM] text of a minute of the day. *)
Definition hhmm (minute : Z) : string := Availability.timeString_of (Num minute).

(** Section 4.2: the starts [startTime], [startTime + d], ... of the slots
    that end by [endTime]. *)
Definition slotStarts (startTime endTime d : Z) : list Z :=
  map (fun k => startTime + Z.of_nat k * d)
      (seq 0 (Z.to_nat ((endTime - startTime) / d))).

(** Section 4.3, the booking half of the conflict filter over an explicit
    candidate sequence: a candidate stays when [isProviderAvailable] says
    so, which is the test the loop of [getAvailableTimeSlots] applies to
    each slot it generates. *)
Fixpoint filterAvailable (provider : option Provider) (date : string)
    (bookings : list Booking) (candidates : list string) : Outcome (list string) :=
  match candidates with
  | [] => Ret []
  | time :: rest =>
      ok ← Availability.isProviderAvailable provider date time bookings;
      kept ← filterAvailable provider date bookings rest;
      Ret (if ok : bool then time :: kept else kept)
  end.

(** The schedule entry the code looks up for a date:
    [provider.availability[new Date(date).getDay()]]. *)
Definition rule_of (provider : option Provider) (date : string)
  : option DayAvailability :=
  avail ← provider ≫= availability;
  Availability.day_entry avail (getDay (Date_of_string date)).

(** Section 3: every open day of the schedule stores both its times. *)
Definition times_stored (provider : option Provider) (date : string) : Prop :=
  forall rule, rule_of provider date = Some rule -> available rule = true ->
    is_Some (startTime rule) /\ is_Some (endTime rule).

(** The verdict of [isProviderAvailable] as a plain boolean (false on a
    throw). *)
Definition available_at (provider : option Provider) (date : string)
    (bookings : list Booking) (time : string) : bool :=
  match Availability.isProviderAvailable provider date time bookings with
  | Ret b => b
  | _ => false
  end.

(** Reading back the text of the minute [k] gives the minute [k] (the
    test run below over every minute of the day). *)
Definition hhmm_roundtrip_at (k : nat) : bool :=
  match minutes_of (hhmm (Z.of_nat k)) with
  | Num z => (z =? Z.of_nat k) && negb (String.eqb (hhmm (Z.of_nat k)) "")
  | _ => false
  end.

(** A booking that occupies its slot: status pending or confirmed. *)
Definition active (b : Booking) : Prop :=
  status b = "pending" \/ status b = "confirmed".

(** Section 3: the number of booking documents of the store that are
    pending for one provider, date and time. *)
Definition pending_at (db : Firestore.Db) (provider date time : string) : nat :=
  size (filter
          (fun kv : nat * Booking =>
             providerId kv.2 = provider /\ scheduledDate kv.2 = date
             /\ scheduledTime kv.2 = time /\ status kv.2 = "pending")
          (Firestore.bookings db)).

(** The date text of the clock reading [now]:
    [new Date().toISOString().split('T')[0]]. *)
Definition today_of (now : Z) : string :=
  match toISOString (TimeValue now) with
  | Ret iso => default "" (split "T" iso !! 0%nat)
  | _ => ""
  end.

(** The instant a slot starts at: [new Date(`${date}T${time}:00`)] as a
    number. *)
Definition slot_instant (date time : string) : number :=
  valueOf (Date_of_string (date +:+ "T" +:+ time +:+ ":00")).

(** The instant of a minute of the day on the fixed date the helper of
    firestore.js puts its times on (2000-01-01). *)
Definition on_fixed_day (minute : Z) : Date :=
  TimeValue (946684800000 + minute * msPerMinute).

(** The helper of firestore.js reads the text of the minute [k] as the
    instant of that minute, and prints that instant as the same text (the
    test run below over every minute of the day). *)
Definition fixed_day_at (k : nat) : bool :=
  match Date_of_string ("2000-01-01 " +:+ hhmm (Z.of_nat k)) with
  | TimeValue t => t =? 946684800000 + Z.of_nat k * msPerMinute
  | InvalidDate => false
  end
  && String.eqb (slice0 5 (toTimeString (on_fixed_day (Z.of_nat k))))
       (hhmm (Z.of_nat k)).


(** The booking documents of the store, as a page fetches them. *)
Definition bookings_of (db : Firestore.Db) : list Booking :=
  map snd (map_to_list (Firestore.bookings db)).

(** Several calls of [createBooking] in flight at once. Each call is one
    write, so a run is the sequence of the calls in the order in which the
    store takes their writes; the replies come back in that order. *)
Fixpoint run_createBooking (calls : list Booking) (db : Firestore.Db)
  : list (Firestore.Reply nat) * Firestore.Db :=
  match calls with
  | [] => ([], db)
  | bookingData :: rest =>
      let '(reply, db') := Firestore.createBooking None bookingData db in
      let '(replies, db'') := run_createBooking rest db' in
      (reply :: replies, db'')
  end.

(** A reply that reports success. *)
Definition succeeded {A} (reply : Firestore.Reply A) : bool :=
  match reply with
  | Firestore.Success _ => true
  | Firestore.Failure _ => false
  end.

(** Section 3: a date text [YYYY-MM-DD], four digits, two digits and two
    digits between hyphens, whatever the digits are. *)
Definition date_shaped (date : string) : bool :=
  let rest : option string :=
    '(_, s) ← take_digits 4 date 0;
    s ← expect "-" s;
    '(_, s) ← take_digits 2 s 0;
    s ← expect "-" s;
    '(_, s) ← take_digits 2 s 0;
    Some s in
  match rest with
  | Some EmptyString => true
  | _ => false
  end.

(** Section 3: every open day of the schedule stores its two times as the
    texts of minutes of the day, 00:00 to 23:59. *)
Definition day_times (provider : option Provider) : Prop :=
  forall avail k rule,
    provider ≫= availability = Some avail -> avail !! k = Some rule ->
    available rule = true ->
    exists s e, 0 <= s < 1440 /\ 0 <= e < 1440
                /\ startTime rule = Some (hhmm s) /\ endTime rule = Some (hhmm e).

(** [(count / total) * 100] as [getAvailabilityStatus] computes it, in
    double precision. *)
Definition percentage (count total : Z) : PrimFloat.float :=
  PrimFloat.mul (PrimFloat.div (to_float (Num count)) (to_float (Num total)))
                (to_float (Num 100)).



End Spec.

(* ===================================================================== *)
(** * Concrete data for the examples                                      *)
(* ===================================================================== *)

Module Scenario.
Import Js.

Definition openDay : DayAvailability :=
  {| available := true; startTime := Some "09:00"; endTime := Some "17:00" |}.

Definition closedDay : DayAvailability :=
  {| available := false; startTime := Some "09:00"; endTime := Some "17:00" |}.

(** The schedule a new provider profile starts with
    (provider/profile/page.js): Monday to Friday, 09:00 to 17:00. *)
Definition weekdays : gmap nat DayAvailability :=
  list_to_map
    [(0%nat, closedDay); (1%nat, openDay); (2%nat, openDay); (3%nat, openDay);
     (4%nat, openDay); (5%nat, openDay); (6%nat, closedDay)].

Definition everyDay : gmap nat DayAvailability :=
  list_to_map
    [(0%nat, openDay); (1%nat, openDay); (2%nat, openDay); (3%nat, openDay);
     (4%nat, openDay); (5%nat, openDay); (6%nat, openDay)].

Definition pat : Provider :=
  {| id := "pat"; name := "Pat"; averagePrice := 40; availability := Some weekdays |}.

Definition sam : Provider :=
  {| id := "sam"; name := "Sam"; averagePrice := 25; availability := Some everyDay |}.

(** A provider document without a schedule. *)
Definition newcomer : Provider :=
  {| id := "new"; name := "New"; averagePrice := 0; availability := None |}.

(** A booking request of customer [who] with provider [whom]. *)
Definition request (who : string) (whom : Provider) (date time status' : string)
  : Booking :=
  {| customerId := who; customerName := who;
     providerId := id whom; providerName := name whom;
     serviceType := "Plumbing"; scheduledDate := date; scheduledTime := time;
     description := ""; status := status'; totalPrice := averagePrice whom;
     createdAt := None; updatedAt := None |}.

(** 2024-01-15 was a Monday. *)
Definition monday : string := "2024-01-15".
Definition sunday : string := "2024-01-14".

(** The clock reading at a date-time text. *)
Definition clock_at (text : string) : Z :=
  match Date_of_string text with
  | TimeValue t => t
  | InvalidDate => 0
  end.

(** Two customers asking for the same provider, date and time. *)
Definition annAtTen : Booking := request "ann" pat monday "10:00" "".
Definition bobAtTen : Booking := request "bob" pat monday "10:00" "".

(** A store that holds the two providers and no booking. *)
Definition emptyStore : Firestore.Db :=
  {| Firestore.bookings := ∅;
     Firestore.providers := {[ "pat" := pat; "sam" := sam ]} |}.

End Scenario.

(* ===================================================================== *)
(** * Theorems                                                            *)
(* ===================================================================== *)

Import Js.

(** ** Outcomes and fuel *)

Lemma returns_unique {A} (f : nat -> Outcome A) (a b : A) :
  returns f a -> returns f b -> a = b.
Proof.
  intros [n Hn] [m Hm].
  specialize (Hn (max n m) (Nat.le_max_l _ _)).
  specialize (Hm (max n m) (Nat.le_max_r _ _)).
  congruence.
Qed.

Lemma returns_const {A} (a : A) : returns (fun _ => Ret a) a.
Proof. exists 0%nat. reflexivity. Qed.

Lemma diverges_not_returns {A} (f : nat -> Outcome A) (a : A) :
  diverges f -> ~ returns f a.
Proof.
  intros Hd [n Hn]. specialize (Hn n (Nat.le_refl n)). rewrite Hd in Hn. discriminate.
Qed.

(** ** Numbers *)

Lemma parseInt_finite x : parseInt x = NaN \/ exists z, parseInt x = Num z.
Proof.
  unfold parseInt.
  destruct (trim_start (default "undefined" x)) as [|c s]; cbn.
  - left. reflexivity.
  - repeat match goal with
           | |- context [let '(_, _) := ?p in _] => destruct p eqn:?
           end.
    match goal with
    | |- context [parse_digits ?r ?s ?a] => destruct (parse_digits r s a)
    end; eauto.
Qed.

Lemma minutes_of_finite t : Spec.minutes_of t = NaN \/ exists z, Spec.minutes_of t = Num z.
Proof.
  unfold Spec.minutes_of.
  destruct (parseInt_finite (split ":" t !! 0%nat)) as [-> | [h ->]]; [left; reflexivity|].
  destruct (parseInt_finite (split ":" t !! 1%nat)) as [-> | [m ->]]; [left; reflexivity|].
  right. eexists. reflexivity.
Qed.

(** ** Slot arithmetic *)

Lemma slot_count_zero s e d :
  0 < d -> e < s + d -> Z.to_nat ((e - s) / d) = 0%nat.
Proof.
  intros Hd Hlt.
  assert ((e - s) / d <= 0).
  { destruct (Z_lt_le_dec (e - s) 0).
    - pose proof (Z.div_lt_upper_bound (e - s) d 0 Hd). lia.
    - rewrite Z.div_small; lia. }
  lia.
Qed.

Lemma slot_count_step s e d :
  0 < d -> s + d <= e ->
  Z.to_nat ((e - s) / d) = S (Z.to_nat ((e - (s + d)) / d)).
Proof.
  intros Hd Hle.
  replace (e - s) with ((e - (s + d)) + 1 * d) by lia.
  rewrite Z.div_add by lia.
  assert (0 <= (e - (s + d)) / d) by (apply Z.div_pos; lia).
  lia.
Qed.

Lemma slotStarts_nil s e d :
  0 < d -> e < s + d -> Spec.slotStarts s e d = [].
Proof.
  intros Hd Hlt. unfold Spec.slotStarts. rewrite slot_count_zero; auto.
Qed.

Lemma slotStarts_cons s e d :
  0 < d -> s + d <= e ->
  Spec.slotStarts s e d = s :: Spec.slotStarts (s + d) e d.
Proof.
  intros Hd Hle. unfold Spec.slotStarts.
  rewrite (slot_count_step s e d) by assumption.
  cbn [seq map]. f_equal; [lia|].
  rewrite <- seq_shift, map_map.
  apply map_ext. intros k. lia.
Qed.

Lemma slotStarts_length s e d :
  length (Spec.slotStarts s e d) = Z.to_nat ((e - s) / d).
Proof. unfold Spec.slotStarts. now rewrite length_map, length_seq. Qed.

(** Every start lies in the window and leaves room for a whole slot. *)
Lemma slotStarts_In s e d x :
  0 < d ->
  In x (Spec.slotStarts s e d) <->
  exists k, 0 <= k /\ x = s + k * d /\ x + d <= e.
Proof.
  intros Hd. unfold Spec.slotStarts. rewrite in_map_iff. split.
  - intros (k & <- & Hk). apply in_seq in Hk.
    exists (Z.of_nat k). split; [lia|]. split; [reflexivity|].
    assert (Hq : Z.of_nat k + 1 <= (e - s) / d) by lia.
    pose proof (Z.mul_div_le (e - s) d Hd). nia.
  - intros (k & Hk & -> & Hfit).
    exists (Z.to_nat k). split; [lia|]. apply in_seq.
    assert (k + 1 <= (e - s) / d).
    { apply Z.div_le_lower_bound; lia. }
    lia.
Qed.

Lemma slotStarts_sorted s e d :
  0 < d -> StronglySorted Z.lt (Spec.slotStarts s e d).
Proof.
  intros Hd.
  remember (Z.to_nat ((e - s) / d)) as n eqn:Hn.
  revert s Hn. induction n as [|n IH]; intros s Hn.
  - unfold Spec.slotStarts. rewrite <- Hn. constructor.
  - destruct (Z_lt_le_dec e (s + d)) as [Hlt | Hle].
    + rewrite slot_count_zero in Hn by assumption. discriminate.
    + rewrite slotStarts_cons by assumption.
      constructor.
      * apply IH. rewrite slot_count_step in Hn by assumption. congruence.
      * apply List.Forall_forall. intros x Hx.
        apply slotStarts_In in Hx; [|assumption].
        destruct Hx as (k & Hk & -> & _). nia.
Qed.

(** ** Time texts *)

Lemma forallb_seq_lt (f : nat -> bool) (n : nat) :
  forallb f (seq 0 n) = true -> forall k, (k < n)%nat -> f k = true.
Proof.
  intros Hall k Hk. rewrite forallb_forall in Hall. apply Hall, in_seq. lia.
Qed.

Lemma hhmm_roundtrip_checked : forallb Spec.hhmm_roundtrip_at (seq 0 1440) = true.
Proof. vm_compute. reflexivity. Qed.

Lemma minutes_of_hhmm c :
  0 <= c < 1440 -> Spec.minutes_of (Spec.hhmm c) = Num c /\ Spec.hhmm c <> "".
Proof.
  intros Hc.
  pose proof (forallb_seq_lt _ _ hhmm_roundtrip_checked (Z.to_nat c) ltac:(lia)) as Hk.
  unfold Spec.hhmm_roundtrip_at in Hk.
  rewrite Z2Nat.id in Hk by lia.
  destruct (Spec.minutes_of (Spec.hhmm c)) as [| |z]; try discriminate.
  apply andb_true_iff in Hk as [Hz Hne].
  apply Z.eqb_eq in Hz. subst z. split; [reflexivity|].
  apply negb_true_iff, String.eqb_neq in Hne. exact Hne.
Qed.

(** ** The two slot loops of availability.js *)

Lemma generateTimeSlots_for_spec fuel d e : forall s acc,
  0 < d -> (Z.to_nat ((e - s) / d) < fuel)%nat ->
  Availability.generateTimeSlots_for fuel d (Num e) (Num s) acc
  = Ret (acc ++ map Spec.hhmm (Spec.slotStarts s e d))%list.
Proof.
  induction fuel as [|fuel IH]; intros s acc Hd Hfuel; [lia|].
  cbn [Availability.generateTimeSlots_for nadd nle].
  destruct (Z.leb_spec (s + d) e) as [Hle | Hlt].
  - rewrite IH; [| assumption | rewrite slot_count_step in Hfuel by assumption; lia].
    rewrite (slotStarts_cons s e d) by assumption.
    cbn [map]. now rewrite <- app_assoc.
  - rewrite slotStarts_nil by assumption. cbn [map]. now rewrite app_nil_r.
Qed.

Lemma generateTimeSlots_for_NaN_end fuel d time acc :
  Availability.generateTimeSlots_for (S fuel) d NaN time acc = Ret acc.
Proof. cbn. destruct time; reflexivity. Qed.

Lemma generateTimeSlots_for_NaN_start fuel d end_ acc :
  Availability.generateTimeSlots_for (S fuel) d end_ NaN acc = Ret acc.
Proof. reflexivity. Qed.

Lemma generateTimeSlots_unfold fuel st en d :
  Availability.generateTimeSlots fuel st en d
  = Availability.generateTimeSlots_for fuel d (Spec.minutes_of en) (Spec.minutes_of st) [].
Proof. reflexivity. Qed.

Lemma generateTimeSlots_returns s e d :
  0 <= s < 1440 -> 0 <= e < 1440 -> 0 < d ->
  returns (fun fuel => Availability.generateTimeSlots fuel (Spec.hhmm s) (Spec.hhmm e) d)
          (map Spec.hhmm (Spec.slotStarts s e d)).
Proof.
  intros Hs He Hd.
  exists (S (Z.to_nat ((e - s) / d))). intros fuel Hfuel.
  rewrite generateTimeSlots_unfold.
  rewrite (proj1 (minutes_of_hhmm s Hs)), (proj1 (minutes_of_hhmm e He)).
  rewrite generateTimeSlots_for_spec by (assumption || lia).
  reflexivity.
Qed.

Lemma find_is_Some {A} (f : A -> bool) (l : list A) :
  bool_decide (is_Some (List.find f l)) = existsb f l.
Proof.
  induction l as [|x l IH]; cbn [List.find existsb].
  - reflexivity.
  - destruct (f x); cbn [orb]; [reflexivity | exact IH].
Qed.

(** On an open day with both times stored, [isProviderAvailable] is the
    conjunction it reads as: a time was given, it lies in the working
    hours, and no active booking sits on it. *)
Lemma isProviderAvailable_open provider date rule st en time bookings :
  Spec.rule_of provider date = Some rule -> date <> "" ->
  available rule = true -> startTime rule = Some st -> endTime rule = Some en ->
  Availability.isProviderAvailable provider date time bookings
  = Ret (negb (String.eqb time "")
         && negb (nlt (Spec.minutes_of time) (Spec.minutes_of st)
                  || nge (Spec.minutes_of time) (Spec.minutes_of en))
         && negb (existsb (Availability.conflicts date time) bookings)).
Proof.
  intros Hrule Hdate Hopen Hst Hen.
  unfold Spec.rule_of in Hrule. unfold Availability.isProviderAvailable.
  destruct (provider ≫= availability) as [avail|]; [|discriminate].
  cbn in Hrule. rewrite Hrule, Hopen, Hst, Hen.
  apply String.eqb_neq in Hdate. rewrite Hdate.
  destruct (String.eqb time ""); [reflexivity|].
  cbn [orb negb andb split_of mbind Outcome_bind].
  fold (Spec.minutes_of time). fold (Spec.minutes_of st). fold (Spec.minutes_of en).
  destruct (nlt _ _ || nge _ _); [reflexivity|].
  now rewrite find_is_Some.
Qed.

(** Off an open day every time is refused. *)
Lemma isProviderAvailable_closed provider date time bookings :
  (forall rule, Spec.rule_of provider date = Some rule -> available rule = false) ->
  Availability.isProviderAvailable provider date time bookings = Ret false.
Proof.
  intros Hclosed.
  unfold Spec.rule_of in Hclosed. unfold Availability.isProviderAvailable.
  destruct (provider ≫= availability) as [avail|]; [|reflexivity].
  destruct (String.eqb date "" || String.eqb time ""); [reflexivity|].
  cbn in Hclosed.
  destruct (Availability.day_entry avail _) as [rule|]; [|reflexivity].
  now rewrite (Hclosed rule eq_refl).
Qed.

(** With the times of every open day stored, [isProviderAvailable] always
    answers. *)
Lemma isProviderAvailable_total provider date bookings :
  Spec.times_stored provider date ->
  forall time, exists b,
    Availability.isProviderAvailable provider date time bookings = Ret b.
Proof.
  intros Hstored time.
  destruct (String.eqb_spec date "") as [-> | Hdate].
  { unfold Availability.isProviderAvailable.
    destruct (provider ≫= availability); eexists; reflexivity. }
  destruct (Spec.rule_of provider date) as [rule|] eqn:Hrule.
  - destruct (available rule) eqn:Hopen.
    + destruct (Hstored rule Hrule Hopen) as [[st Hst] [en Hen]].
      eexists. eapply isProviderAvailable_open; eassumption.
    + exists false. apply isProviderAvailable_closed.
      intros rule' Hrule'. congruence.
  - exists false. apply isProviderAvailable_closed.
    intros rule' Hrule'. congruence.
Qed.

Lemma getAvailableTimeSlots_while_spec fuel provider date bookings d e :
  forall s acc,
  0 < d ->
  (forall time, exists b,
      Availability.isProviderAvailable provider date time bookings = Ret b) ->
  (Z.to_nat ((e - s) / d) < fuel)%nat ->
  Availability.getAvailableTimeSlots_while fuel provider date bookings d
    (Num e) (Num s) acc
  = Ret (acc ++ List.filter (Spec.available_at provider date bookings)
                  (map Spec.hhmm (Spec.slotStarts s e d)))%list.
Proof.
  induction fuel as [|fuel IH]; intros s acc Hd Htotal Hfuel; [lia|].
  cbn [Availability.getAvailableTimeSlots_while nadd nle].
  change (Availability.timeString_of (Num s)) with (Spec.hhmm s).
  destruct (Z.leb_spec (s + d) e) as [Hle | Hlt].
  - destruct (Htotal (Spec.hhmm s)) as [b Hb]. rewrite Hb.
    cbn [mbind Outcome_bind].
    rewrite IH; [| assumption | assumption
                 | rewrite slot_count_step in Hfuel by assumption; lia].
    rewrite (slotStarts_cons s e d) by assumption.
    cbn [map List.filter]. unfold Spec.available_at at 2. rewrite Hb.
    destruct b; [now rewrite <- app_assoc | reflexivity].
  - rewrite slotStarts_nil by assumption. cbn [map List.filter].
    now rewrite app_nil_r.
Qed.

Lemma getAvailableTimeSlots_while_NaN_end fuel provider date bookings d time acc :
  Availability.getAvailableTimeSlots_while (S fuel) provider date bookings d
    NaN time acc = Ret acc.
Proof. cbn. destruct time; reflexivity. Qed.

Lemma getAvailableTimeSlots_while_NaN_start fuel provider date bookings d end_ acc :
  Availability.getAvailableTimeSlots_while (S fuel) provider date bookings d
    end_ NaN acc = Ret acc.
Proof. reflexivity. Qed.

(** On an open day [getAvailableTimeSlots] is its loop, run from the
    stored start to the stored end. *)
Lemma getAvailableTimeSlots_open fuel provider date rule st en bookings d :
  Spec.rule_of provider date = Some rule -> date <> "" ->
  available rule = true -> startTime rule = Some st -> endTime rule = Some en ->
  Availability.getAvailableTimeSlots fuel provider date bookings d
  = Availability.getAvailableTimeSlots_while fuel provider date bookings d
      (Spec.minutes_of en) (Spec.minutes_of st) [].
Proof.
  intros Hrule Hdate Hopen Hst Hen.
  unfold Spec.rule_of in Hrule. unfold Availability.getAvailableTimeSlots.
  destruct (provider ≫= availability) as [avail|]; [|discriminate].
  cbn in Hrule. rewrite Hrule, Hopen, Hst, Hen.
  apply String.eqb_neq in Hdate. rewrite Hdate.
  reflexivity.
Qed.

(** Without a schedule, without a date, or off an open day the slot list
    is empty, whatever the fuel. *)
Lemma getAvailableTimeSlots_closed fuel provider date bookings d :
  (forall rule, Spec.rule_of provider date = Some rule -> available rule = false) ->
  Availability.getAvailableTimeSlots fuel provider date bookings d = Ret [].
Proof.
  intros Hclosed.
  unfold Spec.rule_of in Hclosed. unfold Availability.getAvailableTimeSlots.
  destruct (provider ≫= availability) as [avail|]; [|reflexivity].
  destruct (String.eqb date ""); [reflexivity|].
  cbn in Hclosed.
  destruct (Availability.day_entry avail _) as [rule|]; [|reflexivity].
  now rewrite (Hclosed rule eq_refl).
Qed.

Lemma filter_all {A} (f : A -> bool) (l : list A) :
  (forall x, In x l -> f x = true) -> List.filter f l = l.
Proof.
  induction l as [|x l IH]; intros Hall; [reflexivity|].
  cbn. rewrite (Hall x (or_introl eq_refl)).
  f_equal. apply IH. intros y Hy. apply Hall. now right.
Qed.

Lemma filter_length_le {A} (f : A -> bool) (l : list A) :
  (length (List.filter f l) <= length l)%nat.
Proof.
  induction l as [|x l IH]; cbn; [lia|]. destruct (f x); cbn; lia.
Qed.

(** With no booking at all, every generated slot of an open day is
    offered. *)
Lemma getAvailableTimeSlots_unbooked provider date rule s e d :
  Spec.rule_of provider date = Some rule -> date <> "" ->
  available rule = true ->
  startTime rule = Some (Spec.hhmm s) -> endTime rule = Some (Spec.hhmm e) ->
  0 <= s < 1440 -> 0 <= e < 1440 -> 0 < d ->
  returns (fun fuel => Availability.getAvailableTimeSlots fuel provider date [] d)
          (map Spec.hhmm (Spec.slotStarts s e d)).
Proof.
  intros Hrule Hdate Hopen Hst Hen Hs He Hd.
  exists (S (Z.to_nat ((e - s) / d))). intros fuel Hfuel.
  rewrite (getAvailableTimeSlots_open fuel provider date rule _ _ [] d
             Hrule Hdate Hopen Hst Hen).
  rewrite (proj1 (minutes_of_hhmm s Hs)), (proj1 (minutes_of_hhmm e He)).
  rewrite getAvailableTimeSlots_while_spec; [| assumption | | lia].
  - cbn [app]. f_equal. apply filter_all.
    intros t Ht. apply in_map_iff in Ht as (x & <- & Hx).
    apply slotStarts_In in Hx as (k & Hk & -> & Hfit); [|assumption].
    assert (Hx : 0 <= s + k * d < 1440) by nia.
    unfold Spec.available_at.
    rewrite (isProviderAvailable_open provider date rule _ _ _ []
               Hrule Hdate Hopen Hst Hen).
    destruct (minutes_of_hhmm _ Hx) as [-> Hne].
    rewrite (proj1 (minutes_of_hhmm s Hs)), (proj1 (minutes_of_hhmm e He)).
    apply String.eqb_neq in Hne. rewrite Hne.
    cbn [nlt nge nle existsb negb andb].
    replace (s + k * d <? s) with false by (symmetry; apply Z.ltb_ge; nia).
    replace (e <=? s + k * d) with false by (symmetry; apply Z.leb_gt; nia).
    reflexivity.
  - apply isProviderAvailable_total.
    intros rule' Hrule' _. rewrite Hrule in Hrule'. injection Hrule' as <-.
    rewrite Hst, Hen. split; eexists; reflexivity.
Qed.

Lemma minutes_of_slot_texts s e d :
  0 <= s -> e < 1440 -> 0 < d ->
  map Spec.minutes_of (map Spec.hhmm (Spec.slotStarts s e d))
  = map Num (Spec.slotStarts s e d).
Proof.
  intros Hs He Hd. rewrite map_map. apply map_ext_in.
  intros x Hx. apply slotStarts_In in Hx as (k & Hk & -> & Hfit); [|assumption].
  apply minutes_of_hhmm. nia.
Qed.

(** C3. Slot generation steps from the start time by the slot duration and
    keeps a start exactly when its whole slot ends by the end time: for
    minutes of the day [s < e] and a positive duration [d],
    [generateTimeSlots], and [getAvailableTimeSlots] on an open day without
    bookings, return the texts of [s], [s + d], [s + 2d], ... with
    [start + d <= e], in ascending order, and reading those texts back
    gives these minutes; on a closed day the list is empty; from 09:00 to
    17:00 in steps of 60 the result is the eight slots 09:00 .. 16:00,
    without 17:00. *)
Theorem C3_slot_generation_stepping :
  (forall s e d, 0 <= s -> s < e -> e < 1440 -> 0 < d ->
     returns (fun fuel =>
                Availability.generateTimeSlots fuel (Spec.hhmm s) (Spec.hhmm e) d)
             (map Spec.hhmm (Spec.slotStarts s e d))
     /\ (forall provider date rule,
           Spec.rule_of provider date = Some rule -> date <> "" ->
           available rule = true ->
           startTime rule = Some (Spec.hhmm s) ->
           endTime rule = Some (Spec.hhmm e) ->
           returns (fun fuel =>
                      Availability.getAvailableTimeSlots fuel provider date [] d)
                   (map Spec.hhmm (Spec.slotStarts s e d)))
     /\ map Spec.minutes_of (map Spec.hhmm (Spec.slotStarts s e d))
        = map Num (Spec.slotStarts s e d)
     /\ (forall x, In x (Spec.slotStarts s e d)
                   <-> exists k, 0 <= k /\ x = s + k * d /\ x + d <= e)
     /\ StronglySorted Z.lt (Spec.slotStarts s e d))
  /\ (forall fuel provider date bookings d rule,
        Spec.rule_of provider date = Some rule -> available rule = false ->
        Availability.getAvailableTimeSlots fuel provider date bookings d = Ret [])
  /\ Spec.slotStarts 540 1020 60 = [540; 600; 660; 720; 780; 840; 900; 960]
  /\ ~ In 1020 (Spec.slotStarts 540 1020 60)
  /\ returns (fun fuel => Availability.generateTimeSlots fuel "09:00" "17:00" 60)
             ["09:00"; "10:00"; "11:00"; "12:00"; "13:00"; "14:00"; "15:00"; "16:00"].
Proof.
  split; [|split; [|split; [|split]]].
  - intros s e d Hs Hse He Hd. repeat split.
    + apply generateTimeSlots_returns; lia.
    + intros provider date rule Hrule Hdate Hopen Hst Hen.
      eapply getAvailableTimeSlots_unbooked; try eassumption; lia.
    + apply minutes_of_slot_texts; assumption.
    + apply slotStarts_In; assumption.
    + apply slotStarts_In; assumption.
    + apply slotStarts_sorted; assumption.
  - intros fuel provider date bookings d rule Hrule Hclosed.
    apply getAvailableTimeSlots_closed. intros rule' Hrule'. congruence.
  - reflexivity.
  - intros Hin. apply slotStarts_In in Hin as (k & Hk & Heq & Hfit); lia.
  - exact (generateTimeSlots_returns 540 1020 60 ltac:(lia) ltac:(lia) ltac:(lia)).
Qed.

Lemma C3_witness :
  returns (fun fuel => Availability.generateTimeSlots fuel (Spec.hhmm 600) (Spec.hhmm 750) 45)
          (map Spec.hhmm (Spec.slotStarts 600 750 45))
  /\ Spec.slotStarts 600 750 45 = [600; 645; 690].
Proof.
  split.
  - apply (proj1 C3_slot_generation_stepping 600 750 45); lia.
  - reflexivity.
Defined.

(** ** Termination of slot generation *)

Lemma times_stored_of_rule provider date rule st en :
  Spec.rule_of provider date = Some rule ->
  startTime rule = Some st -> endTime rule = Some en ->
  Spec.times_stored provider date.
Proof.
  intros Hrule Hst Hen rule' Hrule' _.
  rewrite Hrule in Hrule'. injection Hrule' as <-.
  rewrite Hst, Hen. split; eexists; reflexivity.
Qed.

(** What an open day with stored times offers, for a positive duration:
    the generated slots that [isProviderAvailable] accepts, and nothing
    when a stored time does not read as a number. *)
Lemma getAvailableTimeSlots_open_returns provider date rule st en bookings d :
  Spec.rule_of provider date = Some rule -> date <> "" ->
  available rule = true -> startTime rule = Some st -> endTime rule = Some en ->
  0 < d ->
  returns (fun fuel => Availability.getAvailableTimeSlots fuel provider date bookings d)
    match Spec.minutes_of st, Spec.minutes_of en with
    | Num s, Num e =>
        List.filter (Spec.available_at provider date bookings)
          (map Spec.hhmm (Spec.slotStarts s e d))
    | _, _ => []
    end.
Proof.
  intros Hrule Hdate Hopen Hst Hen Hd.
  pose proof (isProviderAvailable_total provider date bookings
                (times_stored_of_rule _ _ _ _ _ Hrule Hst Hen)) as Htotal.
  destruct (minutes_of_finite st) as [Hs | [s Hs]];
    destruct (minutes_of_finite en) as [He | [e He]]; rewrite ?Hs, ?He.
  1-3: exists 1%nat; intros [|fuel] Hfuel; [lia|];
       rewrite (getAvailableTimeSlots_open _ provider date rule st en bookings d
                  Hrule Hdate Hopen Hst Hen), Hs, He;
       (apply getAvailableTimeSlots_while_NaN_end
        || apply getAvailableTimeSlots_while_NaN_start).
  exists (S (Z.to_nat ((e - s) / d))). intros fuel Hfuel.
  rewrite (getAvailableTimeSlots_open _ provider date rule st en bookings d
             Hrule Hdate Hopen Hst Hen), Hs, He.
  rewrite getAvailableTimeSlots_while_spec by (assumption || lia).
  reflexivity.
Qed.

(** An open day whose stored times are minutes of the day offers the
    generated slots that [isProviderAvailable] accepts. *)
Lemma getAvailableTimeSlots_minutes provider date rule s e bookings d :
  Spec.rule_of provider date = Some rule -> date <> "" ->
  available rule = true ->
  startTime rule = Some (Spec.hhmm s) -> endTime rule = Some (Spec.hhmm e) ->
  0 <= s < 1440 -> 0 <= e < 1440 -> 0 < d ->
  returns (fun fuel => Availability.getAvailableTimeSlots fuel provider date bookings d)
          (List.filter (Spec.available_at provider date bookings)
             (map Spec.hhmm (Spec.slotStarts s e d))).
Proof.
  intros Hrule Hdate Hopen Hst Hen Hs He Hd.
  pose proof (getAvailableTimeSlots_open_returns provider date rule _ _ bookings d
                Hrule Hdate Hopen Hst Hen Hd) as Hret.
  now rewrite (proj1 (minutes_of_hhmm s Hs)), (proj1 (minutes_of_hhmm e He)) in Hret.
Qed.

(** Between two minutes of a day fewer than 1440 slots fit. *)
Lemma slotStarts_bounded s e d :
  0 <= s < 1440 -> 0 <= e < 1440 -> 0 < d ->
  (length (Spec.slotStarts s e d) < 1440)%nat.
Proof.
  intros Hs He Hd. rewrite slotStarts_length.
  assert ((e - s) / d < 1440) by (apply Z.div_lt_upper_bound; nia).
  lia.
Qed.

(** The entry [rule_of] finds is an entry of the schedule. *)
Lemma rule_of_entry provider date rule :
  Spec.rule_of provider date = Some rule ->
  exists avail k, provider ≫= availability = Some avail /\ avail !! k = Some rule.
Proof.
  unfold Spec.rule_of. destruct (provider ≫= availability) as [avail|]; [|discriminate].
  cbn. unfold Availability.day_entry.
  destruct (getDay _) as [| |z]; try discriminate.
  destruct (0 <=? z); [|discriminate].
  intros Hk. eauto.
Qed.

Lemma getAvailableTimeSlots_day_times provider date bookings d :
  0 < d -> Spec.day_times provider ->
  exists slots,
    returns (fun fuel => Availability.getAvailableTimeSlots fuel provider date bookings d)
            slots
    /\ (length slots < 1440)%nat.
Proof.
  intros Hd Htimes.
  destruct (String.eqb_spec date "") as [-> | Hdate].
  { exists []. split; [|cbn; lia]. exists 0%nat. intros fuel _.
    unfold Availability.getAvailableTimeSlots.
    destruct (provider ≫= availability); reflexivity. }
  destruct (Spec.rule_of provider date) as [rule|] eqn:Hrule.
  2: { exists []. split; [|cbn; lia]. exists 0%nat. intros fuel _.
       apply getAvailableTimeSlots_closed. intros rule' Hrule'. congruence. }
  destruct (available rule) eqn:Hopen.
  2: { exists []. split; [|cbn; lia]. exists 0%nat. intros fuel _.
       apply getAvailableTimeSlots_closed. intros rule' Hrule'. congruence. }
  destruct (rule_of_entry _ _ _ Hrule) as (avail & k & Havail & Hk).
  destruct (Htimes avail k rule Havail Hk Hopen) as (s & e & Hs & He & Hst & Hen).
  eexists. split.
  - eapply getAvailableTimeSlots_minutes; eassumption.
  - eapply Nat.le_lt_trans; [apply filter_length_le|].
    rewrite length_map. now apply slotStarts_bounded.
Qed.

(** The example schedule stores 09:00 and 17:00 on each of its days. *)
Lemma pat_day_times : Spec.day_times (Some Scenario.pat).
Proof.
  intros avail k rule Havail Hk Hopen.
  change (Some Scenario.weekdays = Some avail) in Havail. injection Havail as <-.
  unfold Scenario.weekdays in Hk. apply elem_of_list_to_map_2 in Hk.
  exists 540, 1020.
  repeat (apply elem_of_cons in Hk as [[= -> ->] | Hk]);
    try (apply elem_of_nil in Hk; contradiction);
    try discriminate Hopen;
    (split; [lia|]; split; [lia|]; split; reflexivity).
Qed.

(** With a duration that is not positive the loops never leave a window
    they once entered. *)
Lemma generateTimeSlots_for_stuck d e fuel : forall s acc,
  d <= 0 -> s + d <= e ->
  Availability.generateTimeSlots_for fuel d (Num e) (Num s) acc = OutOfFuel.
Proof.
  induction fuel as [|fuel IH]; intros s acc Hd Hle; [reflexivity|].
  cbn [Availability.generateTimeSlots_for nadd nle].
  rewrite (proj2 (Z.leb_le (s + d) e) Hle).
  apply IH; lia.
Qed.

Lemma getAvailableTimeSlots_while_stuck provider date bookings d e fuel :
  forall s acc,
  (forall time, exists b,
      Availability.isProviderAvailable provider date time bookings = Ret b) ->
  d <= 0 -> s + d <= e ->
  Availability.getAvailableTimeSlots_while fuel provider date bookings d
    (Num e) (Num s) acc = OutOfFuel.
Proof.
  induction fuel as [|fuel IH]; intros s acc Htotal Hd Hle; [reflexivity|].
  cbn [Availability.getAvailableTimeSlots_while nadd nle].
  rewrite (proj2 (Z.leb_le (s + d) e) Hle).
  destruct (Htotal (Availability.timeString_of (Num s))) as [b ->].
  cbn [mbind Outcome_bind].
  apply IH; (assumption || lia).
Qed.

(** C9, as the code has it. For every positive slot duration and every
    pair of times that are minutes of the day (00:00 to 23:59), slot
    generation ends with a finite list: [generateTimeSlots] returns the
    fewer than 1440 texts of the generated starts, and for a schedule whose
    open days store such times [getAvailableTimeSlots] returns a list of
    fewer than 1440 slots, whatever the date and the bookings. *)
Theorem C9_generation_terminates_for_positive_duration :
  forall d, 0 < d ->
    (forall s e, 0 <= s < 1440 -> 0 <= e < 1440 ->
       returns (fun fuel =>
                  Availability.generateTimeSlots fuel (Spec.hhmm s) (Spec.hhmm e) d)
               (map Spec.hhmm (Spec.slotStarts s e d))
       /\ (length (Spec.slotStarts s e d) < 1440)%nat)
    /\ (forall provider date bookings,
          Spec.day_times provider ->
          exists slots,
            returns (fun fuel =>
                       Availability.getAvailableTimeSlots fuel provider date bookings d)
                    slots
            /\ (length slots < 1440)%nat).
Proof.
  intros d Hd. split.
  - intros s e Hs He. split.
    + now apply generateTimeSlots_returns.
    + now apply slotStarts_bounded.
  - intros provider date bookings Htimes. now apply getAvailableTimeSlots_day_times.
Qed.

Lemma C9_witness :
  (returns (fun fuel =>
              Availability.generateTimeSlots fuel (Spec.hhmm 540) (Spec.hhmm 640) 30)
           (map Spec.hhmm (Spec.slotStarts 540 640 30))
   /\ (length (Spec.slotStarts 540 640 30) < 1440)%nat)
  /\ map Spec.hhmm (Spec.slotStarts 540 640 30) = ["09:00"; "09:30"; "10:00"]
  /\ exists slots,
       returns (fun fuel =>
                  Availability.getAvailableTimeSlots fuel (Some Scenario.pat)
                    Scenario.monday [Scenario.annAtTen] 30)
               slots
       /\ (length slots < 1440)%nat.
Proof.
  split; [|split].
  - apply (proj1 (C9_generation_terminates_for_positive_duration 30 ltac:(lia))); lia.
  - reflexivity.
  - apply (proj2 (C9_generation_terminates_for_positive_duration 30 ltac:(lia))).
    exact pat_day_times.
Defined.

(** C9 as stated fails at duration 0: from 09:00 to 17:00 neither
    [generateTimeSlots] nor [getAvailableTimeSlots] ever returns, and
    neither rejects the duration. *)
Lemma C9_counterexample_duration_zero :
  diverges (fun fuel => Availability.generateTimeSlots fuel "09:00" "17:00" 0)
  /\ diverges (fun fuel =>
                 Availability.getAvailableTimeSlots fuel (Some Scenario.pat)
                   Scenario.monday [] 0)
  /\ ~ (exists r, returns (fun fuel =>
                             Availability.generateTimeSlots fuel "09:00" "17:00" 0) r).
Proof.
  assert (Hgen : diverges (fun fuel =>
                   Availability.generateTimeSlots fuel "09:00" "17:00" 0)).
  { intros fuel. rewrite generateTimeSlots_unfold.
    change (Spec.minutes_of "17:00") with (Num 1020).
    change (Spec.minutes_of "09:00") with (Num 540).
    apply generateTimeSlots_for_stuck; lia. }
  split; [exact Hgen | split].
  - intros fuel.
    assert (Hrule : Spec.rule_of (Some Scenario.pat) Scenario.monday
                    = Some Scenario.openDay) by (vm_compute; reflexivity).
    rewrite (getAvailableTimeSlots_open fuel _ _ _ "09:00" "17:00" [] 0 Hrule)
      by (reflexivity || discriminate).
    change (Spec.minutes_of "17:00") with (Num 1020).
    change (Spec.minutes_of "09:00") with (Num 540).
    apply getAvailableTimeSlots_while_stuck; [|lia|lia].
    apply isProviderAvailable_total.
    eapply times_stored_of_rule; [exact Hrule | reflexivity | reflexivity].
  - intros [r Hr]. exact (diverges_not_returns _ r Hgen Hr).
Qed.

(** ** Absent availability *)

Lemma rule_of_no_schedule provider date :
  provider ≫= availability = None -> Spec.rule_of provider date = None.
Proof. intros H. unfold Spec.rule_of. now rewrite H. Qed.

Lemma rule_of_invalid_date provider date :
  getDay (Date_of_string date) = NaN -> Spec.rule_of provider date = None.
Proof.
  intros H. unfold Spec.rule_of. rewrite H.
  destruct (provider ≫= availability); reflexivity.
Qed.

Lemma getAvailabilityStatus_closed fuel provider date bookings :
  (forall rule, Spec.rule_of provider date = Some rule -> available rule = false) ->
  exists st,
    Availability.getAvailabilityStatus fuel provider date bookings = Ret st
    /\ Availability.Status.available st = false
    /\ Availability.Status.status st
       = match provider ≫= availability with
         | Some _ => if String.eqb date "" then "unavailable" else "closed"
         | None => "unavailable"
         end.
Proof.
  intros Hclosed.
  unfold Spec.rule_of in Hclosed. unfold Availability.getAvailabilityStatus.
  destruct (provider ≫= availability) as [avail|].
  2: { eexists. repeat split; reflexivity. }
  destruct (String.eqb date "").
  { eexists. repeat split; reflexivity. }
  cbn in Hclosed.
  destruct (Availability.day_entry avail _) as [rule|].
  - rewrite (Hclosed rule eq_refl). cbn [negb].
    eexists. repeat split; reflexivity.
  - eexists. repeat split; reflexivity.
Qed.

(** The fuel reaches [getAvailabilityStatus] only through its slot query. *)
Lemma getAvailabilityStatus_fuel fuel fuel' provider date bookings :
  Availability.getAvailableTimeSlots fuel provider date bookings 60
  = Availability.getAvailableTimeSlots fuel' provider date bookings 60 ->
  Availability.getAvailabilityStatus fuel provider date bookings
  = Availability.getAvailabilityStatus fuel' provider date bookings.
Proof.
  intros Hsame. unfold Availability.getAvailabilityStatus.
  destruct (provider ≫= availability) as [avail|]; [|reflexivity].
  destruct (String.eqb date ""); [reflexivity|].
  destruct (Availability.day_entry avail _) as [rule|]; [|reflexivity].
  destruct (negb (available rule)); [reflexivity|].
  now rewrite Hsame.
Qed.

(** The weekly overview is another matter: it prints the days of the week
    with [toISOString], which throws on a week start that is no calendar
    date. *)
Example getWeeklyAvailability_invalid_start :
  Availability.getWeeklyAvailability 9 (Some Scenario.pat) "2024-13-45" []
  = Throw (RangeError "Invalid time value")
  /\ (Availability.Status.status <$>
        match Availability.getWeeklyAvailability 9 (Some Scenario.pat) "2024-01-14" [] with
        | Ret week => week !! "Sunday"
        | _ => None
        end) = Some "closed".
Proof. vm_compute. split; reflexivity. Qed.

Lemma date_shaped_not_empty date : Spec.date_shaped date = true -> date <> "".
Proof. intros Hshape ->. vm_compute in Hshape. discriminate. Qed.

(** C8, as the code has it. Absent availability is an answer, not an
    error: for a provider without a schedule (or no provider at all), an
    empty date, a date text [YYYY-MM-DD] whose month is outside 01..12 or
    whose day is outside 01..31 (so that [new Date(date)] is invalid), or a
    date text [YYYY-MM-DD] on a day the schedule does not open, the slot
    list is empty, every time is refused, and the status is closed or
    unavailable; nothing is thrown, whatever the bookings, the duration and
    the fuel. *)
Theorem C8_absent_availability_is_data :
  forall fuel provider date bookings slotDuration,
    provider ≫= availability = None
    \/ date = ""
    \/ (Spec.date_shaped date = true /\ Date_of_string date = InvalidDate)
    \/ (Spec.date_shaped date = true
        /\ forall rule, Spec.rule_of provider date = Some rule ->
                        available rule = false) ->
    Availability.getAvailableTimeSlots fuel provider date bookings slotDuration = Ret []
    /\ (forall time,
          Availability.isProviderAvailable provider date time bookings = Ret false)
    /\ exists st,
         Availability.getAvailabilityStatus fuel provider date bookings = Ret st
         /\ Availability.Status.available st = false
         /\ (Availability.Status.status st = "closed"
             \/ Availability.Status.status st = "unavailable").
Proof.
  intros fuel provider date bookings slotDuration Habsent.
  assert (Hclosed : forall rule, Spec.rule_of provider date = Some rule ->
                                 available rule = false).
  { destruct Habsent as [Hnone | [-> | [[_ Hinvalid] | [_ Hclosed]]]];
      [| | |exact Hclosed].
    - intros rule. rewrite rule_of_no_schedule by assumption. discriminate.
    - intros rule. rewrite rule_of_invalid_date by reflexivity. discriminate.
    - intros rule. rewrite rule_of_invalid_date by (now rewrite Hinvalid).
      discriminate. }
  split; [|split].
  - now apply getAvailableTimeSlots_closed.
  - intros time. now apply isProviderAvailable_closed.
  - destruct (getAvailabilityStatus_closed fuel provider date bookings Hclosed)
      as (st & Hst & Hav & Hstatus).
    exists st. split; [exact Hst|]. split; [exact Hav|].
    rewrite Hstatus.
    destruct (provider ≫= availability); [destruct (String.eqb date "")|]; auto.
Qed.

Lemma C8_witness :
  (Spec.date_shaped "2024-13-45" = true /\ Date_of_string "2024-13-45" = InvalidDate)
  /\ Availability.getAvailableTimeSlots 0 (Some Scenario.pat) "2024-13-45"
       [Scenario.request "ann" Scenario.pat "2024-13-45" "10:00" "pending"] 60 = Ret []
  /\ Availability.getAvailableTimeSlots 0 (Some Scenario.newcomer) Scenario.monday [] 60
     = Ret []
  /\ Availability.getAvailableTimeSlots 0 None Scenario.monday [] 60 = Ret []
  /\ Availability.getAvailableTimeSlots 0 (Some Scenario.pat) "" [] 60 = Ret []
  /\ Availability.getAvailableTimeSlots 0 (Some Scenario.pat) Scenario.sunday [] 60
     = Ret [].
Proof.
  split; [split; reflexivity|]. split; [|split; [|split; [|split]]].
  - apply (C8_absent_availability_is_data 0 (Some Scenario.pat) "2024-13-45").
    right. right. left. split; reflexivity.
  - apply (C8_absent_availability_is_data 0 (Some Scenario.newcomer) Scenario.monday).
    left. reflexivity.
  - apply (C8_absent_availability_is_data 0 None Scenario.monday).
    left. reflexivity.
  - apply (C8_absent_availability_is_data 0 (Some Scenario.pat) "").
    right. left. reflexivity.
  - apply (C8_absent_availability_is_data 0 (Some Scenario.pat) Scenario.sunday).
    right. right. right. split; [reflexivity|]. intros rule Hrule.
    assert (Some rule = Some Scenario.closedDay) as [= ->]
      by (rewrite <- Hrule; vm_compute; reflexivity).
    reflexivity.
Defined.

(** C8 as stated fails at a date outside the calendar whose day is at
    most 31: February 2024 ends on the 29th, yet 2024-02-30 is read as
    2024-03-01, a Friday, and answered as that open day, with its eight
    slots and the status available. *)
Lemma C8_counterexample_day_beyond_month :
  Spec.date_shaped "2024-02-30" = true
  /\ days_from_civil 2024 2 29 + 1 = days_from_civil 2024 3 1
  /\ Date_of_string "2024-02-30" = Date_of_string "2024-03-01"
  /\ getDay (Date_of_string "2024-02-30") = Num 5
  /\ returns (fun fuel =>
                Availability.getAvailableTimeSlots fuel (Some Scenario.pat)
                  "2024-02-30" [] 60)
             ["09:00"; "10:00"; "11:00"; "12:00"; "13:00"; "14:00"; "15:00"; "16:00"]
  /\ exists status,
       returns (fun fuel =>
                  Availability.getAvailabilityStatus fuel (Some Scenario.pat)
                    "2024-02-30" [])
               status
       /\ Availability.Status.available status = true
       /\ Availability.Status.status status = "available".
Proof.
  assert (Hslots : forall fuel, (9 <= fuel)%nat ->
            Availability.getAvailableTimeSlots fuel (Some Scenario.pat) "2024-02-30" [] 60
            = Ret ["09:00"; "10:00"; "11:00"; "12:00"; "13:00"; "14:00"; "15:00";
                   "16:00"]).
  { intros fuel Hfuel. do 9 (destruct fuel as [|fuel]; [lia|]). reflexivity. }
  repeat (split; [reflexivity|]). split; [exists 9%nat; exact Hslots|].
  destruct (Availability.getAvailabilityStatus 9 (Some Scenario.pat) "2024-02-30" [])
    as [status| |] eqn:Hrun; [|vm_compute in Hrun; discriminate..].
  exists status. split; [|split].
  - exists 9%nat. intros fuel Hfuel. rewrite <- Hrun.
    apply getAvailabilityStatus_fuel.
    now rewrite (Hslots fuel Hfuel), (Hslots 9%nat (Nat.le_refl 9)).
  - vm_compute in Hrun. injection Hrun as <-. reflexivity.
  - vm_compute in Hrun. injection Hrun as <-. reflexivity.
Qed.

(** ** The conflict filter *)

Lemma filterAvailable_kept provider date bookings candidates : forall kept,
  Spec.filterAvailable provider date bookings candidates = Ret kept ->
  forall time, In time kept ->
    Availability.isProviderAvailable provider date time bookings = Ret true.
Proof.
  induction candidates as [|c rest IH]; intros kept Hrun time Hin.
  - injection Hrun as <-. destruct Hin.
  - cbn [Spec.filterAvailable] in Hrun.
    destruct (Availability.isProviderAvailable provider date c bookings)
      as [ok| |] eqn:Hc; cbn in Hrun; try discriminate.
    destruct (Spec.filterAvailable provider date bookings rest)
      as [kept'| |]; cbn in Hrun; try discriminate.
    injection Hrun as <-.
    destruct ok.
    + destruct Hin as [<- | Hin]; [exact Hc | now apply (IH kept')].
    + now apply (IH kept').
Qed.

Lemma filterAvailable_fixed provider date bookings slots :
  (forall time, In time slots ->
     Availability.isProviderAvailable provider date time bookings = Ret true) ->
  Spec.filterAvailable provider date bookings slots = Ret slots.
Proof.
  induction slots as [|t rest IH]; intros Hall; [reflexivity|].
  cbn [Spec.filterAvailable].
  rewrite (Hall t (or_introl eq_refl)). cbn [mbind Outcome_bind].
  rewrite IH by (intros u Hu; apply Hall; now right).
  reflexivity.
Qed.

Lemma filterAvailable_total provider date bookings candidates :
  (forall time, exists b,
      Availability.isProviderAvailable provider date time bookings = Ret b) ->
  Spec.filterAvailable provider date bookings candidates
  = Ret (List.filter (Spec.available_at provider date bookings) candidates).
Proof.
  intros Htotal. induction candidates as [|c rest IH]; [reflexivity|].
  cbn [Spec.filterAvailable List.filter]. rewrite IH.
  unfold Spec.available_at at 2.
  destruct (Htotal c) as [b ->]. reflexivity.
Qed.

(** The list [getAvailableTimeSlots] returns on an open day is the filter
    applied to the slots the day generates. *)
Lemma getAvailableTimeSlots_is_filterAvailable provider date rule st en s e bookings d :
  Spec.rule_of provider date = Some rule -> date <> "" ->
  available rule = true -> startTime rule = Some st -> endTime rule = Some en ->
  Spec.minutes_of st = Num s -> Spec.minutes_of en = Num e -> 0 < d ->
  exists slots,
    returns (fun fuel => Availability.getAvailableTimeSlots fuel provider date bookings d)
            slots
    /\ Spec.filterAvailable provider date bookings
         (map Spec.hhmm (Spec.slotStarts s e d)) = Ret slots.
Proof.
  intros Hrule Hdate Hopen Hst Hen Hs He Hd.
  pose proof (getAvailableTimeSlots_open_returns provider date rule st en bookings d
                Hrule Hdate Hopen Hst Hen Hd) as Hret.
  rewrite Hs, He in Hret.
  eexists. split; [exact Hret|].
  apply filterAvailable_total, isProviderAvailable_total.
  eapply times_stored_of_rule; eassumption.
Qed.

(** Every slot the loop of [getAvailableTimeSlots] pushes was accepted by
    [isProviderAvailable]. *)
Lemma getAvailableTimeSlots_while_accepted provider date bookings d fuel :
  forall end_ current acc slots,
  (forall time, In time acc ->
     Availability.isProviderAvailable provider date time bookings = Ret true) ->
  Availability.getAvailableTimeSlots_while fuel provider date bookings d
    end_ current acc = Ret slots ->
  forall time, In time slots ->
    Availability.isProviderAvailable provider date time bookings = Ret true.
Proof.
  induction fuel as [|fuel IH]; intros end_ current acc slots Hacc Hrun;
    [discriminate|].
  cbn [Availability.getAvailableTimeSlots_while] in Hrun.
  destruct (nle (nadd current (Num d)) end_).
  - destruct (Availability.isProviderAvailable provider date
                (Availability.timeString_of current) bookings)
      as [ok| |] eqn:Hok; cbn [mbind Outcome_bind] in Hrun; try discriminate.
    eapply IH; [|exact Hrun].
    intros time Hin. destruct ok; [|now apply Hacc].
    apply in_app_or in Hin as [Hin | [<- | []]]; [now apply Hacc | exact Hok].
  - injection Hrun as <-. exact Hacc.
Qed.

Lemma getAvailableTimeSlots_accepted fuel provider date bookings d slots :
  Availability.getAvailableTimeSlots fuel provider date bookings d = Ret slots ->
  forall time, In time slots ->
    Availability.isProviderAvailable provider date time bookings = Ret true.
Proof.
  unfold Availability.getAvailableTimeSlots. intros Hrun.
  destruct (provider ≫= availability) as [avail|];
    [| injection Hrun as <-; intros ? []].
  destruct (String.eqb date ""); [injection Hrun as <-; intros ? []|].
  destruct (Availability.day_entry avail _) as [rule|];
    [| injection Hrun as <-; intros ? []].
  destruct (negb (available rule)); [injection Hrun as <-; intros ? []|].
  destruct (startTime rule); [|discriminate].
  destruct (endTime rule); [|discriminate].
  cbn [split_of mbind Outcome_bind] in Hrun.
  eapply getAvailableTimeSlots_while_accepted; [|exact Hrun].
  intros ? [].
Qed.

(** The bookings matter to [isProviderAvailable] only through the question
    whether some booking conflicts. *)
Lemma isProviderAvailable_bookings_ext provider date time bookings bookings' :
  existsb (Availability.conflicts date time) bookings
  = existsb (Availability.conflicts date time) bookings' ->
  Availability.isProviderAvailable provider date time bookings
  = Availability.isProviderAvailable provider date time bookings'.
Proof.
  intros Hext. unfold Availability.isProviderAvailable.
  destruct (provider ≫= availability) as [avail|]; [|reflexivity].
  destruct (String.eqb date "" || String.eqb time ""); [reflexivity|].
  destruct (Availability.day_entry avail _) as [rule|]; [|reflexivity].
  destruct (negb (available rule)); [reflexivity|].
  destruct (startTime rule); [|reflexivity].
  destruct (endTime rule); [|reflexivity].
  cbn [split_of mbind Outcome_bind].
  destruct (nlt _ _ || nge _ _); [reflexivity|].
  now rewrite !find_is_Some, Hext.
Qed.

Lemma getAvailableTimeSlots_while_bookings_ext provider date bookings bookings' d fuel :
  (forall time, existsb (Availability.conflicts date time) bookings
                = existsb (Availability.conflicts date time) bookings') ->
  forall end_ current acc,
  Availability.getAvailableTimeSlots_while fuel provider date bookings d end_ current acc
  = Availability.getAvailableTimeSlots_while fuel provider date bookings' d end_ current acc.
Proof.
  intros Hext. induction fuel as [|fuel IH]; intros end_ current acc; [reflexivity|].
  cbn [Availability.getAvailableTimeSlots_while].
  destruct (nle _ _); [|reflexivity].
  rewrite (isProviderAvailable_bookings_ext provider date _ bookings bookings')
    by apply Hext.
  destruct (Availability.isProviderAvailable _ _ _ bookings'); cbn; auto.
Qed.

Lemma getAvailableTimeSlots_bookings_ext fuel provider date bookings bookings' d :
  (forall time, existsb (Availability.conflicts date time) bookings
                = existsb (Availability.conflicts date time) bookings') ->
  Availability.getAvailableTimeSlots fuel provider date bookings d
  = Availability.getAvailableTimeSlots fuel provider date bookings' d.
Proof.
  intros Hext. unfold Availability.getAvailableTimeSlots.
  destruct (provider ≫= availability) as [avail|]; [|reflexivity].
  destruct (String.eqb date ""); [reflexivity|].
  destruct (Availability.day_entry avail _) as [rule|]; [|reflexivity].
  destruct (negb (available rule)); [reflexivity|].
  destruct (startTime rule); [|reflexivity].
  destruct (endTime rule); [|reflexivity].
  cbn [split_of mbind Outcome_bind].
  now apply getAvailableTimeSlots_while_bookings_ext.
Qed.

Lemma filterAvailable_bookings_ext provider date bookings bookings' candidates :
  (forall time, existsb (Availability.conflicts date time) bookings
                = existsb (Availability.conflicts date time) bookings') ->
  Spec.filterAvailable provider date bookings candidates
  = Spec.filterAvailable provider date bookings' candidates.
Proof.
  intros Hext. induction candidates as [|c rest IH]; [reflexivity|].
  cbn [Spec.filterAvailable].
  rewrite (isProviderAvailable_bookings_ext provider date c bookings bookings')
    by apply Hext.
  now rewrite IH.
Qed.

Lemma active_includes b :
  Spec.active b -> includes (status b) ["pending"; "confirmed"] = true.
Proof. intros [-> | ->]; reflexivity. Qed.

(** One more active booking on a slot that already has one changes no
    conflict test. *)
Lemma duplicate_conflict date time b dup bookings1 bookings2 :
  In b (bookings1 ++ bookings2) ->
  Spec.active b -> Spec.active dup ->
  scheduledDate dup = scheduledDate b -> scheduledTime dup = scheduledTime b ->
  existsb (Availability.conflicts date time) (bookings1 ++ dup :: bookings2)
  = existsb (Availability.conflicts date time) (bookings1 ++ bookings2).
Proof.
  intros Hin Hb Hdup Hdate Htime.
  rewrite !existsb_app. cbn [existsb].
  destruct (Availability.conflicts date time dup) eqn:Hc; [|reflexivity].
  cbn [orb]. rewrite orb_true_r. symmetry.
  rewrite <- existsb_app. apply existsb_exists. exists b. split; [exact Hin|].
  unfold Availability.conflicts in *.
  rewrite <- Hdate, <- Htime, (active_includes b Hb).
  rewrite (active_includes dup Hdup) in Hc. exact Hc.
Qed.

(** C7. The conflict filter is idempotent: filtering a filtered sequence
    again with the same bookings leaves it as it is, for every candidate
    sequence and in particular for the list [getAvailableTimeSlots]
    returns; and a further pending or confirmed booking on a date and time
    that already has one changes neither the filter nor
    [getAvailableTimeSlots]. *)
Theorem C7_conflict_filter_idempotent :
  (forall provider date bookings candidates kept,
     Spec.filterAvailable provider date bookings candidates = Ret kept ->
     Spec.filterAvailable provider date bookings kept = Ret kept)
  /\ (forall fuel provider date bookings d slots,
        Availability.getAvailableTimeSlots fuel provider date bookings d = Ret slots ->
        Spec.filterAvailable provider date bookings slots = Ret slots)
  /\ (forall provider date bookings1 bookings2 b dup,
        In b (bookings1 ++ bookings2) ->
        Spec.active b -> Spec.active dup ->
        scheduledDate dup = scheduledDate b -> scheduledTime dup = scheduledTime b ->
        (forall candidates,
           Spec.filterAvailable provider date (bookings1 ++ dup :: bookings2) candidates
           = Spec.filterAvailable provider date (bookings1 ++ bookings2) candidates)
        /\ (forall fuel d,
              Availability.getAvailableTimeSlots fuel provider date
                (bookings1 ++ dup :: bookings2) d
              = Availability.getAvailableTimeSlots fuel provider date
                  (bookings1 ++ bookings2) d)).
Proof.
  split; [|split].
  - intros provider date bookings candidates kept Hrun.
    apply filterAvailable_fixed.
    now apply (filterAvailable_kept provider date bookings candidates).
  - intros fuel provider date bookings d slots Hrun.
    apply filterAvailable_fixed.
    now apply (getAvailableTimeSlots_accepted fuel provider date bookings d).
  - intros provider date bookings1 bookings2 b dup Hin Hb Hdup Hdate Htime.
    assert (Hext : forall time,
               existsb (Availability.conflicts date time) (bookings1 ++ dup :: bookings2)
               = existsb (Availability.conflicts date time) (bookings1 ++ bookings2)).
    { intros time. now apply (duplicate_conflict date time b). }
    split.
    + intros candidates. now apply filterAvailable_bookings_ext.
    + intros fuel d. now apply getAvailableTimeSlots_bookings_ext.
Qed.

Lemma C7_witness :
  let taken := Scenario.request "ann" Scenario.pat Scenario.monday "11:00" "confirmed" in
  let again := Scenario.request "bob" Scenario.pat Scenario.monday "11:00" "pending" in
  Spec.filterAvailable (Some Scenario.pat) Scenario.monday [taken]
    ["09:00"; "11:00"; "16:00"; "17:00"] = Ret ["09:00"; "16:00"]
  /\ Spec.filterAvailable (Some Scenario.pat) Scenario.monday [taken] ["09:00"; "16:00"]
     = Ret ["09:00"; "16:00"]
  /\ Availability.getAvailableTimeSlots 9 (Some Scenario.pat) Scenario.monday
       [taken; again] 60
     = Availability.getAvailableTimeSlots 9 (Some Scenario.pat) Scenario.monday
         [taken] 60.
Proof.
  intros taken again.
  assert (Hrun : Spec.filterAvailable (Some Scenario.pat) Scenario.monday [taken]
                   ["09:00"; "11:00"; "16:00"; "17:00"] = Ret ["09:00"; "16:00"])
    by (vm_compute; reflexivity).
  split; [exact Hrun|]. split.
  - exact (proj1 C7_conflict_filter_idempotent _ _ _ _ _ Hrun).
  - apply (proj2 (proj2 C7_conflict_filter_idempotent) (Some Scenario.pat)
             Scenario.monday [taken] [] taken again).
    + left. reflexivity.
    + right. reflexivity.
    + left. reflexivity.
    + reflexivity.
    + reflexivity.
Defined.

(** ** The availability status *)










(** The statuses of the Monday of the example schedule (eight slots) as the
    bookings fill it: 8 of 8 free, 3 of 8, 2 of 8 (exactly 25 per cent),
    1 of 8, none; and the percentage the status reports, rounded from the
    double: 38 for 3 of 8 (37.5), and 57 for 23 of 40, where the product
    falls just short of 57.5. *)
Example status_examples :
  let booked times :=
    map (fun time => Scenario.request "ann" Scenario.pat Scenario.monday time "confirmed")
        times in
  let status_of times :=
    match Availability.getAvailabilityStatus 9 (Some Scenario.pat) Scenario.monday
            (booked times) with
    | Ret status => Availability.Status.status status
    | _ => ""
    end in
  let percentage_of times :=
    match Availability.getAvailabilityStatus 9 (Some Scenario.pat) Scenario.monday
            (booked times) with
    | Ret status => Availability.Status.availabilityPercentage status
    | _ => None
    end in
  status_of [] = "available"
  /\ status_of ["09:00"; "10:00"; "11:00"; "12:00"; "13:00"] = "moderate"
  /\ status_of ["09:00"; "10:00"; "11:00"; "12:00"; "13:00"; "14:00"] = "moderate"
  /\ status_of ["09:00"; "10:00"; "11:00"; "12:00"; "13:00"; "14:00"; "15:00"] = "limited"
  /\ status_of ["09:00"; "10:00"; "11:00"; "12:00"; "13:00"; "14:00"; "15:00"; "16:00"]
     = "fully-booked"
  /\ percentage_of ["09:00"; "10:00"; "11:00"; "12:00"; "13:00"] = Some (Num 38)
  /\ Math_round (Spec.percentage 23 40) = Num 57.
Proof. vm_compute. repeat split; reflexivity. Qed.

(** ** The booking store *)

Lemma addDoc_accepted db data :
  Firestore.addDoc None db data
  = (Ret (fresh (dom (Firestore.bookings db))),
     {| Firestore.bookings :=
          <[fresh (dom (Firestore.bookings db)) := data]> (Firestore.bookings db);
        Firestore.providers := Firestore.providers db |}).
Proof. reflexivity. Qed.

Lemma fresh_id_unused (bookings : gmap nat Booking) :
  bookings !! fresh (dom bookings) = None.
Proof. apply not_elem_of_dom, is_fresh. Qed.

(** Filing one more pending document for a provider, date and time raises
    the count of such documents by one. *)
Lemma pending_at_insert (db : Firestore.Db) (data : Booking) :
  status data = "pending" ->
  Spec.pending_at
    {| Firestore.bookings :=
         <[fresh (dom (Firestore.bookings db)) := data]> (Firestore.bookings db);
       Firestore.providers := Firestore.providers db |}
    (providerId data) (scheduledDate data) (scheduledTime data)
  = S (Spec.pending_at db (providerId data) (scheduledDate data) (scheduledTime data)).
Proof.
  intros Hpending. unfold Spec.pending_at. cbn [Firestore.bookings].
  rewrite map_filter_insert_True by (cbn; auto).
  apply map_size_insert_None.
  apply map_lookup_filter_None. left. apply fresh_id_unused.
Qed.

(** [createBooking] never looks at the store: whenever the store takes the
    write, the call succeeds and one more pending document stands for the
    requested provider, date and time, whatever stood there before. *)
Lemma createBooking_unconditional db bookingData :
  exists docId db',
    Firestore.createBooking None bookingData db = (Firestore.Success docId, db')
    /\ Firestore.bookings db !! docId = None
    /\ Spec.pending_at db' (providerId bookingData) (scheduledDate bookingData)
         (scheduledTime bookingData)
       = S (Spec.pending_at db (providerId bookingData) (scheduledDate bookingData)
              (scheduledTime bookingData)).
Proof.
  unfold Firestore.createBooking. rewrite addDoc_accepted.
  eexists _, _. split; [reflexivity|]. split; [apply fresh_id_unused|].
  match goal with
  | |- Spec.pending_at (Firestore.Build_Db (<[_ := ?data]> _) _) _ _ _ = _ =>
      exact (pending_at_insert db data eq_refl)
  end.
Qed.

(** When the store refuses the write, [createBooking] reports the failure
    and the store stays as it was. *)
Lemma createBooking_refused msg db bookingData :
  Firestore.createBooking (Some msg) bookingData db = (Firestore.Failure msg, db).
Proof. reflexivity. Qed.

(** Any number of calls for one provider, date and time, taken by the store
    in any order: every call succeeds and each adds a pending document. *)
Lemma run_createBooking_all_succeed provider date time calls : forall db,
  Forall (fun b => providerId b = provider /\ scheduledDate b = date
                   /\ scheduledTime b = time) calls ->
  forallb Spec.succeeded (fst (Spec.run_createBooking calls db)) = true
  /\ length (fst (Spec.run_createBooking calls db)) = length calls
  /\ Spec.pending_at (snd (Spec.run_createBooking calls db)) provider date time
     = (Spec.pending_at db provider date time + length calls)%nat.
Proof.
  induction calls as [|call rest IH]; intros db Hkey.
  - cbn. repeat split; lia.
  - apply Forall_cons in Hkey as [(<- & <- & <-) Hrest].
    destruct (createBooking_unconditional db call) as (docId & db' & Hrun & _ & Hcount).
    cbn [Spec.run_createBooking]. rewrite Hrun.
    specialize (IH db' Hrest).
    destruct (Spec.run_createBooking rest db') as [replies db''].
    cbn [fst snd forallb length Spec.succeeded andb] in *.
    destruct IH as (Hall & Hlen & Hpending).
    repeat split; [exact Hall | lia | lia].
Qed.

(** C1, at the failing input. Two calls of [createBooking] for the same
    provider, date and time on a store with no booking: in either order
    both calls report success, and afterwards two pending documents stand
    for the one slot. The booking form of the page writes the same way. *)
Theorem C1_double_booking_both_requests_succeed :
  Spec.pending_at Scenario.emptyStore "pat" "2024-01-15" "10:00" = 0%nat
  /\ (let run := Spec.run_createBooking [Scenario.annAtTen; Scenario.bobAtTen]
                   Scenario.emptyStore in
      fst run = [Firestore.Success 0%nat; Firestore.Success 1%nat]
      /\ Spec.pending_at (snd run) "pat" "2024-01-15" "10:00" = 2%nat)
  /\ (let run := Spec.run_createBooking [Scenario.bobAtTen; Scenario.annAtTen]
                   Scenario.emptyStore in
      fst run = [Firestore.Success 0%nat; Firestore.Success 1%nat]
      /\ Spec.pending_at (snd run) "pat" "2024-01-15" "10:00" = 2%nat)
  /\ (let form := {| ProviderPage.form_serviceType := "Plumbing";
                     ProviderPage.form_scheduledDate := "2024-01-15";
                     ProviderPage.form_scheduledTime := "10:00";
                     ProviderPage.form_description := "" |} in
      let ann := {| ProviderPage.uid := "ann"; ProviderPage.displayName := None;
                    ProviderPage.email := "ann@example.org" |} in
      let bob := {| ProviderPage.uid := "bob"; ProviderPage.displayName := None;
                    ProviderPage.email := "bob@example.org" |} in
      let now := Scenario.clock_at "2024-01-12T08:00:00" in
      let first := ProviderPage.handleBookingSubmit None now (Some ann) "customer"
                     Scenario.pat form Scenario.emptyStore in
      let second := ProviderPage.handleBookingSubmit None now (Some bob) "customer"
                      Scenario.pat form (snd first) in
      fst first = ProviderPage.AlertRequestSent
      /\ fst second = ProviderPage.AlertRequestSent
      /\ Spec.pending_at (snd second) "pat" "2024-01-15" "10:00" = 2%nat).
Proof. vm_compute. repeat split; reflexivity. Qed.

(** C2, at the failing inputs. A slot that already holds a pending booking
    is booked a second time: the call succeeds and the store grows. A
    booking is created on a day the provider is closed and at a time
    outside the working hours, although the slot list computed from the
    store does not offer the time. *)
Theorem C2_booking_created_without_revalidation :
  let taken := snd (Firestore.createBooking None Scenario.annAtTen Scenario.emptyStore) in
  Spec.pending_at taken "pat" "2024-01-15" "10:00" = 1%nat
  /\ Availability.getAvailableTimeSlots 9 (Some Scenario.pat) "2024-01-15"
       (Spec.bookings_of taken) 60
     = Ret ["09:00"; "11:00"; "12:00"; "13:00"; "14:00"; "15:00"; "16:00"]
  /\ fst (Firestore.createBooking None Scenario.bobAtTen taken) = Firestore.Success 1%nat
  /\ Spec.pending_at (snd (Firestore.createBooking None Scenario.bobAtTen taken))
       "pat" "2024-01-15" "10:00" = 2%nat
  /\ Firestore.bookings (snd (Firestore.createBooking None Scenario.bobAtTen taken))
     <> Firestore.bookings taken
  /\ (let closedDay := Scenario.request "bob" Scenario.pat "2024-01-14" "03:00" "" in
      Availability.getAvailableTimeSlots 9 (Some Scenario.pat) "2024-01-14"
        (Spec.bookings_of Scenario.emptyStore) 60 = Ret []
      /\ fst (Firestore.createBooking None closedDay Scenario.emptyStore)
         = Firestore.Success 0%nat
      /\ Spec.pending_at (snd (Firestore.createBooking None closedDay Scenario.emptyStore))
           "pat" "2024-01-14" "03:00" = 1%nat).
Proof.
  cbv zeta. repeat split; try (vm_compute; reflexivity).
  intros Heq. apply (f_equal size) in Heq. vm_compute in Heq. discriminate.
Qed.

(** ** Past slots *)

Lemma toISOString_valid now : exists iso, toISOString (TimeValue now) = Ret iso.
Proof.
  unfold toISOString.
  destruct (civil_from_days (now / msPerDay)) as [[y m] dom].
  eexists. reflexivity.
Qed.

(** [filterPastSlots] leaves every other day alone and, on the day of the
    clock, drops exactly the slots that start strictly before the clock
    reading. *)
Lemma filterPastSlots_characterised now date timeSlots :
  Availability.filterPastSlots now date timeSlots
  = Ret (if String.eqb date (Spec.today_of now)
         then List.filter
                (fun time => negb (nlt (Spec.slot_instant date time) (Num now)))
                timeSlots
         else timeSlots).
Proof.
  unfold Availability.filterPastSlots, Spec.today_of.
  destruct (toISOString_valid now) as [iso ->]. cbn [mbind Outcome_bind].
  destruct (String.eqb date _); reflexivity.
Qed.

Lemma filterPastSlots_other_day now date timeSlots :
  date <> Spec.today_of now ->
  Availability.filterPastSlots now date timeSlots = Ret timeSlots.
Proof.
  intros Hne. rewrite filterPastSlots_characterised.
  apply String.eqb_neq in Hne. now rewrite Hne.
Qed.

(** On the day of the clock a slot is kept exactly when it does not start
    strictly before the clock reading; a slot that starts at the very
    reading is kept. *)
Lemma filterPastSlots_today now timeSlots time :
  In time timeSlots ->
  forall kept instant,
    Availability.filterPastSlots now (Spec.today_of now) timeSlots = Ret kept ->
    Spec.slot_instant (Spec.today_of now) time = Num instant ->
    (In time kept <-> now <= instant).
Proof.
  intros Hin kept instant Hrun Hinstant.
  rewrite filterPastSlots_characterised, String.eqb_refl in Hrun.
  injection Hrun as <-.
  rewrite filter_In, Hinstant. cbn [nlt].
  rewrite negb_true_iff, Z.ltb_ge. tauto.
Qed.

Lemma filter_filter {A} (f : A -> bool) (l : list A) :
  List.filter f (List.filter f l) = List.filter f l.
Proof.
  apply filter_all. intros x Hx. now apply filter_In in Hx.
Qed.

(** At one clock reading the past-slot filter is idempotent as well. *)
Lemma filterPastSlots_idempotent now date timeSlots kept :
  Availability.filterPastSlots now date timeSlots = Ret kept ->
  Availability.filterPastSlots now date kept = Ret kept.
Proof.
  rewrite !filterPastSlots_characterised. intros [= <-].
  destruct (String.eqb date _); [|reflexivity].
  now rewrite filter_filter.
Qed.

(** The example of the specification: at 14:30 the slot of 09:00 is gone
    and the slot of 15:00 stays; on another day nothing is dropped. *)
Example filterPastSlots_at_half_past_two :
  let now := Scenario.clock_at "2024-01-15T14:30:00" in
  Availability.filterPastSlots now "2024-01-15" ["09:00"; "14:00"; "15:00"; "16:00"]
  = Ret ["15:00"; "16:00"]
  /\ Availability.filterPastSlots now "2024-01-16" ["09:00"; "14:00"; "15:00"; "16:00"]
     = Ret ["09:00"; "14:00"; "15:00"; "16:00"].
Proof. vm_compute. split; reflexivity. Qed.

(** C5, at the failing input. The clock reads 2024-01-15 09:00:00.000, the
    very instant the slot of 09:00 starts, so the instant of the slot is
    less than or equal to the clock reading. [filterPastSlots] keeps the
    slot, because [isSlotInPast] compares with a strict less-than; the
    availability card of the provider page, which keeps a slot only when it
    starts after the clock reading, drops it. *)
Theorem C5_slot_starting_now_is_kept :
  let now := Scenario.clock_at "2024-01-15T09:00:00" in
  Spec.today_of now = "2024-01-15"
  /\ Spec.slot_instant "2024-01-15" "09:00" = Num now
  /\ Availability.isSlotInPast now "2024-01-15" "09:00" = false
  /\ Availability.filterPastSlots now "2024-01-15" ["09:00"; "10:00"]
     = Ret ["09:00"; "10:00"]
  /\ ProviderPage.todayAvailableSlots now "2024-01-15" ["09:00"; "10:00"] = ["10:00"].
Proof. vm_compute. repeat split; reflexivity. Qed.

(** ** The next available slot *)



(** C6, at the failing input. Sam is open every day from 09:00 to 17:00 and
    has no booking; the clock reads Monday 2024-01-15 14:30. The first slot
    of today still ahead is 15:00, but [getNextAvailableSlot] answers
    09:00 of today, a slot [isSlotInPast] calls past. At 18:00 no slot of
    today is left, [hasAvailabilityOnDate] says so and
    [getNextAvailableDate] moves on to Tuesday, yet [getNextAvailableSlot]
    still answers 09:00 of today. *)
Theorem C6_next_slot_ignores_the_clock :
  let afternoon := Scenario.clock_at "2024-01-15T14:30:00" in
  let evening := Scenario.clock_at "2024-01-15T18:00:00" in
  let today_at_nine :=
    {| Availability.next_date := "2024-01-15";
       Availability.next_time := Some "09:00";
       Availability.next_dayName := Some "Monday" |} in
  Availability.getNextAvailableSlot 9 afternoon (Some Scenario.sam) [] 14
  = Ret (Some today_at_nine)
  /\ Availability.isSlotInPast afternoon "2024-01-15" "09:00" = true
  /\ (slots ← Availability.getAvailableTimeSlots 9 (Some Scenario.sam) "2024-01-15" [] 60;
      Availability.filterPastSlots afternoon "2024-01-15" slots)
     = Ret ["15:00"; "16:00"]
  /\ Availability.getNextAvailableSlot 9 evening (Some Scenario.sam) [] 14
     = Ret (Some today_at_nine)
  /\ (slots ← Availability.getAvailableTimeSlots 9 (Some Scenario.sam) "2024-01-15" [] 60;
      Availability.filterPastSlots evening "2024-01-15" slots)
     = Ret []
  /\ Availability.hasAvailabilityOnDate 9 evening (Some Scenario.sam) "2024-01-15" []
     = Ret false
  /\ Availability.getNextAvailableDate 9 evening (Some Scenario.sam) [] 14
     = Ret (Some "2024-01-16").
Proof. vm_compute. repeat split; reflexivity. Qed.

(** ** The two slot generators *)

(** What the helper of firestore.js generates: the starts that lie before
    the end, whether or not their slot fits. *)

Lemma fixed_day_checked : forallb Spec.fixed_day_at (seq 0 1440) = true.
Proof. vm_compute. reflexivity. Qed.

Lemma fixed_day_texts c :
  0 <= c < 1440 ->
  Date_of_string ("2000-01-01 " +:+ Spec.hhmm c) = Spec.on_fixed_day c
  /\ slice0 5 (toTimeString (Spec.on_fixed_day c)) = Spec.hhmm c.
Proof.
  intros Hc.
  pose proof (forallb_seq_lt _ _ fixed_day_checked (Z.to_nat c) ltac:(lia)) as Hk.
  unfold Spec.fixed_day_at in Hk.
  rewrite Z2Nat.id in Hk by lia.
  apply andb_true_iff in Hk as [Hparse Hprint].
  split.
  - destruct (Date_of_string _) as [|t]; [discriminate|].
    apply Z.eqb_eq in Hparse. subst t. reflexivity.
  - now apply String.eqb_eq.
Qed.

Lemma setMinutes_advance c d :
  setMinutes (Spec.on_fixed_day c) (nadd (getMinutes (Spec.on_fixed_day c)) (Num d))
  = Spec.on_fixed_day (c + d).
Proof.
  unfold Spec.on_fixed_day, setMinutes, getMinutes, nadd, msPerMinute.
  f_equal. lia.
Qed.

Lemma firestore_while_spec fuel d e : forall c acc,
  0 < d -> 0 <= c -> e < 1440 ->
  (Z.to_nat ((e + d - 1 - c) / d) < fuel)%nat ->
  Firestore.generateTimeSlots_while fuel d (Spec.on_fixed_day e) (Spec.on_fixed_day c) acc
  = Ret (acc ++ map Spec.hhmm (Spec.slotStarts c (e + d - 1) d))%list.
Proof.
  induction fuel as [|fuel IH]; intros c acc Hd Hc He Hfuel; [lia|].
  cbn [Firestore.generateTimeSlots_while].
  rewrite setMinutes_advance.
  unfold Spec.on_fixed_day at 1 2. cbn [valueOf nlt]. unfold msPerMinute.
  destruct (Z.ltb_spec (946684800000 + c * 60000) (946684800000 + e * 60000))
    as [Hlt | Hge].
  - rewrite (proj2 (fixed_day_texts c ltac:(lia))).
    rewrite IH; [| lia | lia | lia
                 | rewrite (slot_count_step c (e + d - 1) d) in Hfuel by lia; lia].
    rewrite (slotStarts_cons c (e + d - 1) d) by lia.
    cbn [map]. now rewrite <- app_assoc.
  - rewrite slotStarts_nil by lia. cbn [map]. now rewrite app_nil_r.
Qed.

Lemma firestore_generateTimeSlots_returns s e d :
  0 <= s < 1440 -> 0 <= e < 1440 -> 0 < d ->
  returns (fun fuel => Firestore.generateTimeSlots fuel (Spec.hhmm s) (Spec.hhmm e) d)
          (map Spec.hhmm (Spec.slotStarts s (e + d - 1) d)).
Proof.
  intros Hs He Hd.
  exists (S (Z.to_nat ((e + d - 1 - s) / d))). intros fuel Hfuel.
  unfold Firestore.generateTimeSlots.
  rewrite (proj1 (fixed_day_texts s Hs)), (proj1 (fixed_day_texts e He)).
  rewrite firestore_while_spec by lia.
  reflexivity.
Qed.

(** The two generators return the same list exactly when the working window
    is a whole number of slots; otherwise the helper of firestore.js
    returns one slot more, and that slot starts before the end and ends
    after it. *)
Lemma generators_compared s e d :
  0 <= s -> s < e -> e < 1440 -> 0 < d ->
  ((e - s) mod d = 0 ->
     Spec.slotStarts s (e + d - 1) d = Spec.slotStarts s e d)
  /\ ((e - s) mod d <> 0 ->
      exists last,
        Spec.slotStarts s (e + d - 1) d = (Spec.slotStarts s e d ++ [last])%list
        /\ last < e < last + d).
Proof.
  intros Hs Hse He Hd.
  pose proof (Z.div_mod (e - s) d ltac:(lia)) as Hdm.
  pose proof (Z.mod_pos_bound (e - s) d Hd) as Hbound.
  set (q := (e - s) / d) in *. set (r := (e - s) mod d) in *.
  assert (Hq : 0 <= q) by (apply Z.div_pos; lia).
  split.
  - intros Hr. unfold Spec.slotStarts. f_equal. f_equal. f_equal.
    fold q. rewrite Hr in Hdm.
    replace (e + d - 1 - s) with ((d - 1) + q * d) by lia.
    rewrite Z.div_add by lia. rewrite Z.div_small by lia. lia.
  - intros Hr. exists (s + q * d).
    assert (Hcount : (e + d - 1 - s) / d = q + 1).
    { replace (e + d - 1 - s) with ((r - 1) + (q + 1) * d) by lia.
      rewrite Z.div_add by lia. rewrite Z.div_small by lia. lia. }
    split; [|lia].
    unfold Spec.slotStarts. fold q. rewrite Hcount.
    replace (Z.to_nat (q + 1)) with (Z.to_nat q + 1)%nat by lia.
    rewrite seq_app, map_app. cbn [seq map Nat.add]. f_equal. f_equal. lia.
Qed.

(** C10, at the failing input. From 09:00 to 17:30 in steps of 60 minutes
    the helper of firestore.js returns nine slots, the last of them 17:00,
    whose hour runs past 17:30; [generateTimeSlots] of availability.js
    returns eight and ends with 16:00. *)
Theorem C10_firestore_generator_overruns_the_end :
  Firestore.generateTimeSlots 10 "09:00" "17:30" 60
  = Ret ["09:00"; "10:00"; "11:00"; "12:00"; "13:00"; "14:00"; "15:00"; "16:00";
         "17:00"]
  /\ Availability.generateTimeSlots 10 "09:00" "17:30" 60
     = Ret ["09:00"; "10:00"; "11:00"; "12:00"; "13:00"; "14:00"; "15:00"; "16:00"]
  /\ Spec.minutes_of "17:00" = Num 1020
  /\ Spec.minutes_of "17:30" = Num 1050
  /\ Firestore.generateTimeSlots 10 "09:00" "17:30" 60
     <> Availability.generateTimeSlots 10 "09:00" "17:30" 60.
Proof. vm_compute. repeat split; try reflexivity. discriminate. Qed.

(* ===================================================================== *)
(** * Further properties of the code                                      *)
(* ===================================================================== *)


Lemma isProviderAvailable_true_no_conflict provider date time bookings :
  Availability.isProviderAvailable provider date time bookings = Ret true ->
  existsb (Availability.conflicts date time) bookings = false.
Proof.
  unfold Availability.isProviderAvailable.
  destruct (provider ≫= availability) as [avail|]; [|discriminate].
  destruct (String.eqb date "" || String.eqb time ""); [discriminate|].
  destruct (Availability.day_entry avail _) as [rule|]; [|discriminate].
  destruct (negb (available rule)); [discriminate|].
  destruct (startTime rule); [|discriminate].
  destruct (endTime rule); [|discriminate].
  cbn [split_of mbind Outcome_bind].
  destruct (nlt _ _ || nge _ _); [discriminate|].
  rewrite find_is_Some. intros [= H]. now apply negb_true_iff in H.
Qed.

(** X1. No offered slot collides with an active booking: whatever list
    [getAvailableTimeSlots] returns, the time of a pending or confirmed
    booking of that date is not in it. *)
Theorem offered_slots_avoid_active_bookings fuel provider date bookings d slots b :
  Availability.getAvailableTimeSlots fuel provider date bookings d = Ret slots ->
  In b bookings -> scheduledDate b = date -> Spec.active b ->
  ~ In (scheduledTime b) slots.
Proof.
  intros Hrun Hin Hdate Hactive Hslot.
  pose proof (getAvailableTimeSlots_accepted _ _ _ _ _ _ Hrun _ Hslot) as Hok.
  apply isProviderAvailable_true_no_conflict in Hok.
  assert (Htrue : existsb (Availability.conflicts date (scheduledTime b)) bookings = true).
  { apply existsb_exists. exists b. split; [exact Hin|].
    unfold Availability.conflicts.
    rewrite Hdate, !String.eqb_refl, (active_includes b Hactive). reflexivity. }
  congruence.
Qed.

Lemma existsb_filter_implied {A} (f g : A -> bool) (l : list A) :
  (forall x, f x = true -> g x = true) ->
  existsb f (List.filter g l) = existsb f l.
Proof.
  intros Himp. induction l as [|x l IH]; [reflexivity|].
  cbn [List.filter existsb]. destruct (g x) eqn:Hg; cbn [existsb].
  - now rewrite IH.
  - destruct (f x) eqn:Hf; [|exact IH].
    rewrite (Himp x Hf) in Hg. discriminate.
Qed.

(** X2. Only the pending and confirmed bookings of the date count:
    [getAvailableTimeSlots] answers the same when every other booking
    (cancelled, completed, of another day) is taken out of the list. *)
Theorem bookings_matter_only_when_active_on_the_date fuel provider date bookings d :
  Availability.getAvailableTimeSlots fuel provider date bookings d
  = Availability.getAvailableTimeSlots fuel provider date
      (List.filter
         (fun booking =>
            String.eqb (scheduledDate booking) date
            && includes (status booking) ["pending"; "confirmed"])
         bookings) d.
Proof.
  apply getAvailableTimeSlots_bookings_ext. intros time. symmetry.
  apply existsb_filter_implied. intros b. unfold Availability.conflicts.
  destruct (String.eqb (scheduledDate b) date); [|discriminate].
  destruct (String.eqb (scheduledTime b) time); [|discriminate].
  cbn [andb]. auto.
Qed.


(** X4. The booking form of the page: without a signed-in user it
    redirects to the login page and writes nothing; a user who is not a
    customer gets the alert and nothing is written; a refused write shows
    the error and leaves the store alone; otherwise one pending document of
    the customer for the provider, date and time of the form is filed under
    a fresh id, without any look at the bookings already stored. *)
Theorem handleBookingSubmit_outcomes now user provider form db :
  (forall fault role,
      ProviderPage.handleBookingSubmit fault now None role provider form db
      = (ProviderPage.RedirectToLogin, db))
  /\ (forall fault role, role <> "customer" ->
        ProviderPage.handleBookingSubmit fault now (Some user) role provider form db
        = (ProviderPage.AlertOnlyCustomers, db))
  /\ (forall msg,
        ProviderPage.handleBookingSubmit (Some msg) now (Some user) "customer"
          provider form db
        = (ProviderPage.AlertError, db))
  /\ exists data,
       ProviderPage.handleBookingSubmit None now (Some user) "customer" provider form db
       = (ProviderPage.AlertRequestSent,
          {| Firestore.bookings :=
               <[fresh (dom (Firestore.bookings db)) := data]> (Firestore.bookings db);
             Firestore.providers := Firestore.providers db |})
       /\ Firestore.bookings db !! fresh (dom (Firestore.bookings db)) = None
       /\ status data = "pending"
       /\ customerId data = ProviderPage.uid user
       /\ providerId data = id provider
       /\ scheduledDate data = ProviderPage.form_scheduledDate form
       /\ scheduledTime data = ProviderPage.form_scheduledTime form
       /\ totalPrice data = averagePrice provider.
Proof.
  split; [reflexivity|]. split; [|split].
  - intros fault role Hrole. unfold ProviderPage.handleBookingSubmit.
    apply String.eqb_neq in Hrole. now rewrite Hrole.
  - intros msg. unfold ProviderPage.handleBookingSubmit.
    destruct (toISOString_valid now) as [iso ->]. reflexivity.
  - unfold ProviderPage.handleBookingSubmit.
    destruct (toISOString_valid now) as [iso ->].
    eexists. split; [reflexivity|]. split; [apply fresh_id_unused|].
    repeat split; reflexivity.
Qed.

(** X5. The helper [generateTimeSlots] of firestore.js, for minutes of the
    day and a positive interval: it returns, in ascending order, the texts
    of exactly the starts [s + k * d] that lie before the end, whether or
    not the slot that starts there fits. *)
Theorem firestore_generateTimeSlots_starts_before_end s e d :
  0 <= s < 1440 -> 0 <= e < 1440 -> 0 < d ->
  exists starts,
    returns (fun fuel => Firestore.generateTimeSlots fuel (Spec.hhmm s) (Spec.hhmm e) d)
            (map Spec.hhmm starts)
    /\ (forall x, In x starts <-> exists k, 0 <= k /\ x = s + k * d /\ x < e)
    /\ StronglySorted Z.lt starts.
Proof.
  intros Hs He Hd. exists (Spec.slotStarts s (e + d - 1) d).
  split; [now apply firestore_generateTimeSlots_returns|]. split.
  - intros x. rewrite (slotStarts_In s (e + d - 1) d x Hd).
    split; intros (k & Hk & Hx & Hfit); exists k; repeat split; (assumption || lia).
  - now apply slotStarts_sorted.
Qed.

Lemma includes_active b :
  includes (status b) ["pending"; "confirmed"] = true <-> Spec.active b.
Proof.
  split; [|apply active_includes].
  unfold includes, Spec.active. cbn [existsb].
  destruct (String.eqb_spec (status b) "pending") as [-> | _]; [now left|].
  destruct (String.eqb_spec (status b) "confirmed") as [-> | _]; [now right|].
  discriminate.
Qed.

Lemma conflicts_spec date time bookings :
  existsb (Availability.conflicts date time) bookings = true
  <-> exists b, In b bookings /\ scheduledDate b = date /\ scheduledTime b = time
                /\ Spec.active b.
Proof.
  rewrite existsb_exists. unfold Availability.conflicts.
  split.
  - intros (b & Hin & Hc). exists b.
    apply andb_true_iff in Hc as [Hc Hactive]. apply andb_true_iff in Hc as [Hd Ht].
    apply String.eqb_eq in Hd, Ht. apply includes_active in Hactive. auto.
  - intros (b & Hin & <- & <- & Hactive). exists b. split; [exact Hin|].
    now rewrite !String.eqb_refl, (active_includes b Hactive).
Qed.

(** X6. [isProviderAvailable] on an open day, for minutes of the day: it
    returns, and it says yes exactly when the time lies in the working
    window, end excluded, and no pending or confirmed booking of that date
    stands at that time. *)
Theorem isProviderAvailable_within_hours provider date rule s e t bookings :
  Spec.rule_of provider date = Some rule -> Spec.date_shaped date = true ->
  available rule = true ->
  startTime rule = Some (Spec.hhmm s) -> endTime rule = Some (Spec.hhmm e) ->
  0 <= s < 1440 -> 0 <= e < 1440 -> 0 <= t < 1440 ->
  exists verdict,
    Availability.isProviderAvailable provider date (Spec.hhmm t) bookings = Ret verdict
    /\ (verdict = true
        <-> s <= t < e
            /\ ~ exists b, In b bookings /\ scheduledDate b = date
                           /\ scheduledTime b = Spec.hhmm t /\ Spec.active b).
Proof.
  intros Hrule Hshape Hopen Hst Hen Hs He Ht.
  pose proof (date_shaped_not_empty _ Hshape) as Hdate.
  eexists. split.
  - apply (isProviderAvailable_open provider date rule _ _ _ bookings
             Hrule Hdate Hopen Hst Hen).
  - destruct (minutes_of_hhmm t Ht) as [-> Hne].
    rewrite (proj1 (minutes_of_hhmm s Hs)), (proj1 (minutes_of_hhmm e He)).
    apply String.eqb_neq in Hne. rewrite Hne. cbn [negb andb nlt nge nle].
    rewrite <- conflicts_spec.
    destruct (existsb _ bookings); cbn [negb];
      rewrite ?andb_true_r, ?andb_false_r.
    + split; [discriminate | intros [_ Hno]; now contradiction Hno].
    + rewrite negb_true_iff, orb_false_iff, Z.ltb_ge, Z.leb_gt.
      split; [intros [H1 H2]; split; [lia | discriminate] | intros [H _]; lia].
Qed.

Lemma sort_insert_In x y xs : In y (sort_insert x xs) <-> y = x \/ In y xs.
Proof.
  induction xs as [|z xs IH]; cbn [sort_insert In].
  - intuition.
  - destruct (String.leb x z); cbn [In]; [intuition | rewrite IH; intuition].
Qed.

Lemma sort_In y xs : In y (sort xs) <-> In y xs.
Proof.
  induction xs as [|x xs IH]; cbn [sort foldr In]; [reflexivity|].
  fold (sort xs). rewrite sort_insert_In, IH. intuition.
Qed.

Lemma sort_insert_length x xs : length (sort_insert x xs) = S (length xs).
Proof.
  induction xs as [|z xs IH]; cbn [sort_insert length]; [reflexivity|].
  destruct (String.leb x z); cbn [length]; [reflexivity | now rewrite IH].
Qed.

Lemma sort_length xs : length (sort xs) = length xs.
Proof.
  induction xs as [|x xs IH]; cbn [sort foldr length]; [reflexivity|].
  fold (sort xs). now rewrite sort_insert_length, IH.
Qed.

Lemma sort_insert_sorted x xs :
  Sorted (fun a b => String.leb a b = true) xs ->
  Sorted (fun a b => String.leb a b = true) (sort_insert x xs).
Proof.
  induction xs as [|z xs IH]; intros Hsorted; cbn [sort_insert].
  - repeat constructor.
  - destruct (String.leb x z) eqn:Hle.
    + constructor; [exact Hsorted | constructor; exact Hle].
    + apply Sorted_inv in Hsorted as [Hrest Hhead].
      constructor; [now apply IH|].
      assert (Hzx : String.leb z x = true).
      { destruct (String.leb_total x z) as [H | H]; [congruence | exact H]. }
      destruct xs as [|w xs]; cbn [sort_insert].
      * constructor. exact Hzx.
      * destruct (String.leb x w); constructor; [exact Hzx|].
        now apply HdRel_inv in Hhead.
Qed.

Lemma sort_sorted xs : Sorted (fun a b => String.leb a b = true) (sort xs).
Proof.
  induction xs as [|x xs IH]; cbn [sort foldr]; [constructor|].
  fold (sort xs). now apply sort_insert_sorted.
Qed.

(** X7. [getBookedSlotsForDate] lists the times of the pending and
    confirmed bookings of the date, one entry for each such booking, in
    ascending order. *)
Theorem getBookedSlotsForDate_lists_active_bookings date bookings :
  (forall time,
      In time (Availability.getBookedSlotsForDate date bookings)
      <-> exists b, In b bookings /\ scheduledDate b = date /\ Spec.active b
                    /\ scheduledTime b = time)
  /\ length (Availability.getBookedSlotsForDate date bookings)
     = length (List.filter
                 (fun booking =>
                    String.eqb (scheduledDate booking) date
                    && includes (status booking) ["pending"; "confirmed"])
                 bookings)
  /\ Sorted (fun a b => String.leb a b = true)
            (Availability.getBookedSlotsForDate date bookings).
Proof.
  unfold Availability.getBookedSlotsForDate. split; [|split].
  - intros time. rewrite sort_In, in_map_iff. split.
    + intros (b & Htime & Hb). apply filter_In in Hb as [Hin Hb].
      apply andb_true_iff in Hb as [Hd Hactive].
      apply String.eqb_eq in Hd. apply includes_active in Hactive.
      exists b. auto.
    + intros (b & Hin & Hd & Hactive & Htime). exists b. split; [exact Htime|].
      apply filter_In. split; [exact Hin|].
      rewrite Hd, String.eqb_refl. now apply active_includes.
  - now rewrite sort_length, length_map.
  - apply sort_sorted.
Qed.

(** X8. [filterPastSlots] always returns; it only drops slots; on a date
    other than the day of the clock it drops nothing; on the day of the
    clock it keeps a slot exactly when [isSlotInPast] denies it; and at one
    clock reading filtering its result again changes nothing. *)
Theorem filterPastSlots_properties now date timeSlots :
  exists kept,
    Availability.filterPastSlots now date timeSlots = Ret kept
    /\ (forall time, In time kept -> In time timeSlots)
    /\ (date <> Spec.today_of now -> kept = timeSlots)
    /\ (date = Spec.today_of now ->
        forall time, In time timeSlots ->
          (In time kept <-> Availability.isSlotInPast now date time = false))
    /\ Availability.filterPastSlots now date kept = Ret kept.
Proof.
  eexists. split; [apply filterPastSlots_characterised|].
  split; [|split; [|split]].
  - destruct (String.eqb date _); [|auto].
    intros time Hin. now apply filter_In in Hin.
  - intros Hne. apply String.eqb_neq in Hne. now rewrite Hne.
  - intros -> time Hin. rewrite String.eqb_refl, filter_In.
    unfold Availability.isSlotInPast, Spec.slot_instant. cbn [valueOf].
    rewrite negb_true_iff. tauto.
  - eapply filterPastSlots_idempotent. apply filterPastSlots_characterised.
Qed.






Lemma filter_providers_all keep providers :
  (forall provider, keep provider = Ret true) ->
  Availability.filter_providers keep providers = Ret providers.
Proof.
  intros Hall. induction providers as [|provider rest IH]; [reflexivity|].
  cbn [Availability.filter_providers]. rewrite Hall, IH. reflexivity.
Qed.

Lemma filter_providers_kept keep providers : forall kept,
  Availability.filter_providers keep providers = Ret kept ->
  forall provider, In provider kept <-> In provider providers /\ keep provider = Ret true.
Proof.
  induction providers as [|p rest IH]; intros kept Hrun provider.
  - injection Hrun as <-. cbn. tauto.
  - cbn [Availability.filter_providers] in Hrun.
    destruct (keep p) as [ok| |] eqn:Hp; try discriminate.
    cbn [mbind Outcome_bind] in Hrun.
    destruct (Availability.filter_providers keep rest) as [kept'| |]; try discriminate.
    cbn [mbind Outcome_bind] in Hrun. injection Hrun as <-.
    specialize (IH kept' eq_refl provider).
    destruct ok; cbn [In]; rewrite IH; split.
    + intros [<- | [Hin Hk]]; auto.
    + intros [[<- | Hin] Hk]; auto.
    + intros [Hin Hk]; auto.
    + intros [[<- | Hin] Hk]; [congruence | auto].
Qed.

(** X10. Without a date [filterProvidersByAvailability] filters nothing,
    even when a time is given: every provider is returned. *)
Theorem filterProvidersByAvailability_without_a_date fuel now providers time bookingsMap :
  Availability.filterProvidersByAvailability fuel now providers "" time bookingsMap = Ret providers.
Proof.
  unfold Availability.filterProvidersByAvailability. cbn [String.eqb andb].
  destruct (String.eqb time ""); [reflexivity|].
  apply filter_providers_all. intros provider. reflexivity.
Qed.

Lemma filter_providers_total keep providers :
  (forall provider, In provider providers -> exists ok, keep provider = Ret ok) ->
  Availability.filter_providers keep providers
  = Ret (List.filter
           (fun provider => match keep provider with Ret ok => ok | _ => false end)
           providers).
Proof.
  induction providers as [|p rest IH]; intros Hall; [reflexivity|].
  cbn [Availability.filter_providers List.filter].
  destruct (Hall p (or_introl eq_refl)) as [ok ->].
  rewrite IH by (intros q Hq; apply Hall; now right).
  reflexivity.
Qed.

(** X11. With a date and a time [filterProvidersByAvailability] keeps, in
    their order, exactly the providers [isProviderAvailable] accepts at
    that date and time against their own bookings of the map. *)
Theorem filterProvidersByAvailability_at_a_time fuel now providers date time bookingsMap :
  date <> "" -> time <> "" ->
  (forall provider, In provider providers -> Spec.times_stored (Some provider) date) ->
  Availability.filterProvidersByAvailability fuel now providers date time bookingsMap
  = Ret (List.filter
           (fun provider =>
              Spec.available_at (Some provider) date
                (default [] (bookingsMap !! id provider)) time)
           providers).
Proof.
  intros Hdate Htime Hstored.
  unfold Availability.filterProvidersByAvailability.
  apply String.eqb_neq in Hdate, Htime. rewrite Hdate. cbn [andb].
  rewrite filter_providers_total.
  - f_equal. apply filter_ext. intros provider.
    unfold Availability.provider_passes, Spec.available_at.
    rewrite Hdate, Htime. reflexivity.
  - intros provider Hin. unfold Availability.provider_passes.
    rewrite Hdate, Htime. cbn [negb andb].
    apply isProviderAvailable_total. now apply Hstored.
Qed.


Lemma offered_slots_avoid_active_bookings_witness :
  let taken := Scenario.request "ann" Scenario.pat Scenario.monday "10:00" "confirmed" in
  Availability.getAvailableTimeSlots 9 (Some Scenario.pat) Scenario.monday [taken] 60
  = Ret ["09:00"; "11:00"; "12:00"; "13:00"; "14:00"; "15:00"; "16:00"]
  /\ ~ In (scheduledTime taken)
          ["09:00"; "11:00"; "12:00"; "13:00"; "14:00"; "15:00"; "16:00"].
Proof.
  intros taken. split; [vm_compute; reflexivity|].
  apply (offered_slots_avoid_active_bookings 9 (Some Scenario.pat) Scenario.monday
           [taken] 60 _ taken).
  - vm_compute. reflexivity.
  - left. reflexivity.
  - reflexivity.
  - right. reflexivity.
Defined.

Lemma handleBookingSubmit_outcomes_witness :
  let ann := {| ProviderPage.uid := "ann"; ProviderPage.displayName := None;
                ProviderPage.email := "ann@example.org" |} in
  let form := {| ProviderPage.form_serviceType := "Plumbing";
                 ProviderPage.form_scheduledDate := "2024-01-15";
                 ProviderPage.form_scheduledTime := "10:00";
                 ProviderPage.form_description := "" |} in
  ProviderPage.handleBookingSubmit None 0 (Some ann) "provider" Scenario.pat form
    Scenario.emptyStore
  = (ProviderPage.AlertOnlyCustomers, Scenario.emptyStore).
Proof.
  intros ann form.
  apply (proj1 (proj2 (handleBookingSubmit_outcomes 0 ann Scenario.pat form
                         Scenario.emptyStore)) None "provider").
  discriminate.
Defined.

Lemma firestore_generateTimeSlots_starts_before_end_witness :
  exists starts,
    returns (fun fuel =>
               Firestore.generateTimeSlots fuel (Spec.hhmm 540) (Spec.hhmm 1050) 60)
            (map Spec.hhmm starts)
    /\ (forall x, In x starts <-> exists k, 0 <= k /\ x = 540 + k * 60 /\ x < 1050)
    /\ StronglySorted Z.lt starts.
Proof. apply (firestore_generateTimeSlots_starts_before_end 540 1050 60); lia. Defined.

Lemma isProviderAvailable_within_hours_witness :
  exists verdict,
    Availability.isProviderAvailable (Some Scenario.pat) Scenario.monday (Spec.hhmm 600)
      [Scenario.annAtTen] = Ret verdict
    /\ (verdict = true
        <-> 540 <= 600 < 1020
            /\ ~ exists b, In b [Scenario.annAtTen]
                           /\ scheduledDate b = Scenario.monday
                           /\ scheduledTime b = Spec.hhmm 600 /\ Spec.active b).
Proof.
  apply (isProviderAvailable_within_hours (Some Scenario.pat) Scenario.monday
           Scenario.openDay 540 1020 600 [Scenario.annAtTen]).
  - vm_compute. reflexivity.
  - reflexivity.
  - reflexivity.
  - reflexivity.
  - reflexivity.
  - lia.
  - lia.
  - lia.
Defined.


Lemma filterProvidersByAvailability_at_a_time_witness :
  let bookingsMap : gmap string (list Booking) := {[ "pat" := [Scenario.annAtTen] ]} in
  Availability.filterProvidersByAvailability 9 0 [Scenario.pat; Scenario.sam; Scenario.newcomer]
    Scenario.monday "10:00" bookingsMap
  = Ret (List.filter
           (fun provider =>
              Spec.available_at (Some provider) Scenario.monday
                (default [] (bookingsMap !! id provider)) "10:00")
           [Scenario.pat; Scenario.sam; Scenario.newcomer]).
Proof.
  intros bookingsMap.
  apply (filterProvidersByAvailability_at_a_time 9 0
           [Scenario.pat; Scenario.sam; Scenario.newcomer] Scenario.monday "10:00"
           bookingsMap).
  - discriminate.
  - discriminate.
  - intros provider [<- | [<- | [<- | []]]].
    + apply (times_stored_of_rule _ _ Scenario.openDay "09:00" "17:00");
        [vm_compute|..]; reflexivity.
    + apply (times_stored_of_rule _ _ Scenario.openDay "09:00" "17:00");
        [vm_compute|..]; reflexivity.
    + intros rule Hrule. vm_compute in Hrule. discriminate.
Defined.

Example provider_filter_example :
  let bookingsMap : gmap string (list Booking) :=
    {[ "pat" := [Scenario.request "ann" Scenario.pat Scenario.monday "10:00" "confirmed"] ]} in
  let names_of result :=
    match result with
    | Ret kept => map id kept
    | _ => []
    end in
  let everyone := [Scenario.pat; Scenario.sam; Scenario.newcomer] in
  names_of (Availability.filterProvidersByAvailability 9 0 everyone Scenario.monday "10:00"
              bookingsMap) = ["sam"]
  /\ names_of (Availability.filterProvidersByAvailability 9 0 everyone Scenario.monday "11:00"
                 bookingsMap) = ["pat"; "sam"]
  /\ names_of (Availability.filterProvidersByAvailability 9 0 everyone Scenario.sunday ""
                 bookingsMap) = ["sam"]
  /\ names_of (Availability.filterProvidersByAvailability 9 0 everyone "" "11:00" bookingsMap)
     = ["pat"; "sam"; "new"].
Proof. vm_compute. repeat split; reflexivity. Qed.

